(** * sftptester: the concurrent transfer engine of [sftp_tester.py]

    A shallow embedding of [SFTPConfig] (sftp_config.py) and of
    [create_random_zip], [_create_client], [sftp_operation] and [run_tests]
    (sftp_tester.py), followed by the properties of the specification that
    were checked against it.

    Everything the program does to the outside (the local scratch storage,
    the SSH/SFTP calls of paramiko, the clock, the thread pool) is explicit
    state or an explicit answer of the environment:
    - the machine state [machine] holds the monotonic clock, the log of the
      network calls made so far, the local files and directories, and the
      local variable [paths] of [run_tests] (read again by its [finally]);
    - a [World] fixes what the environment answers: which calls raise, how
      long they block, what [random.randint] draws, how the worker threads
      are interleaved and in which order the futures complete. *)

From stdpp Require Import base strings list gmap pretty.
From Stdlib Require Import ZArith Lia Ascii.

Open Scope string_scope.
Open Scope Z_scope.

(** ** sftp_config.py *)

Record SFTPConfig := mkSFTPConfig {
  host : option string;
  username : option string;
  root_dir : string;
  ssh_private_key_passphrase : option string;
  ssh_private_key_path : option string;
  min_test_file_size_bytes : Z;
  max_test_file_size_bytes : Z;
  num_test_files : Z;
  connect_timeout_seconds : Z;
  transfer_timeout_seconds : Z;
  sftp_threads : Z;
  sftp_sleep_interval : Z;
  keep_alive_enabled : Z;
  retry_attempts : Z
}.

(** [SFTPConfig.__init__] *)
Definition SFTPConfig_init : SFTPConfig :=
  {| host := None; username := None; root_dir := "/";
     ssh_private_key_passphrase := None; ssh_private_key_path := None;
     min_test_file_size_bytes := 6000; max_test_file_size_bytes := 64000000;
     num_test_files := 1; connect_timeout_seconds := 20;
     transfer_timeout_seconds := 20; sftp_threads := 1;
     sftp_sleep_interval := -1; keep_alive_enabled := 0;
     retry_attempts := 0 |}.

(** The setters of the class that the development uses. *)
Definition setHost (h : string) (c : SFTPConfig) : SFTPConfig :=
  mkSFTPConfig (Some h) (username c) (root_dir c)
    (ssh_private_key_passphrase c) (ssh_private_key_path c)
    (min_test_file_size_bytes c) (max_test_file_size_bytes c)
    (num_test_files c) (connect_timeout_seconds c)
    (transfer_timeout_seconds c) (sftp_threads c) (sftp_sleep_interval c)
    (keep_alive_enabled c) (retry_attempts c).

Definition minTestFileSizeBytes (size : Z) (c : SFTPConfig) : SFTPConfig :=
  mkSFTPConfig (host c) (username c) (root_dir c)
    (ssh_private_key_passphrase c) (ssh_private_key_path c)
    size (max_test_file_size_bytes c)
    (num_test_files c) (connect_timeout_seconds c)
    (transfer_timeout_seconds c) (sftp_threads c) (sftp_sleep_interval c)
    (keep_alive_enabled c) (retry_attempts c).

Definition maxTestFileSizeBytes (size : Z) (c : SFTPConfig) : SFTPConfig :=
  mkSFTPConfig (host c) (username c) (root_dir c)
    (ssh_private_key_passphrase c) (ssh_private_key_path c)
    (min_test_file_size_bytes c) size
    (num_test_files c) (connect_timeout_seconds c)
    (transfer_timeout_seconds c) (sftp_threads c) (sftp_sleep_interval c)
    (keep_alive_enabled c) (retry_attempts c).

Definition numTestFiles (num : Z) (c : SFTPConfig) : SFTPConfig :=
  mkSFTPConfig (host c) (username c) (root_dir c)
    (ssh_private_key_passphrase c) (ssh_private_key_path c)
    (min_test_file_size_bytes c) (max_test_file_size_bytes c)
    num (connect_timeout_seconds c)
    (transfer_timeout_seconds c) (sftp_threads c) (sftp_sleep_interval c)
    (keep_alive_enabled c) (retry_attempts c).

Definition ConnectTimeoutSeconds (timeout : Z) (c : SFTPConfig) : SFTPConfig :=
  mkSFTPConfig (host c) (username c) (root_dir c)
    (ssh_private_key_passphrase c) (ssh_private_key_path c)
    (min_test_file_size_bytes c) (max_test_file_size_bytes c)
    (num_test_files c) timeout
    (transfer_timeout_seconds c) (sftp_threads c) (sftp_sleep_interval c)
    (keep_alive_enabled c) (retry_attempts c).

Definition sftpThreads (threads : Z) (c : SFTPConfig) : SFTPConfig :=
  mkSFTPConfig (host c) (username c) (root_dir c)
    (ssh_private_key_passphrase c) (ssh_private_key_path c)
    (min_test_file_size_bytes c) (max_test_file_size_bytes c)
    (num_test_files c) (connect_timeout_seconds c)
    (transfer_timeout_seconds c) threads (sftp_sleep_interval c)
    (keep_alive_enabled c) (retry_attempts c).

Definition sftpSleepInterval (interval : Z) (c : SFTPConfig) : SFTPConfig :=
  mkSFTPConfig (host c) (username c) (root_dir c)
    (ssh_private_key_passphrase c) (ssh_private_key_path c)
    (min_test_file_size_bytes c) (max_test_file_size_bytes c)
    (num_test_files c) (connect_timeout_seconds c)
    (transfer_timeout_seconds c) (sftp_threads c) interval
    (keep_alive_enabled c) (retry_attempts c).

Definition keepAliveEnabled (enabled : Z) (c : SFTPConfig) : SFTPConfig :=
  mkSFTPConfig (host c) (username c) (root_dir c)
    (ssh_private_key_passphrase c) (ssh_private_key_path c)
    (min_test_file_size_bytes c) (max_test_file_size_bytes c)
    (num_test_files c) (connect_timeout_seconds c)
    (transfer_timeout_seconds c) (sftp_threads c) (sftp_sleep_interval c)
    enabled (retry_attempts c).

Definition retryAttempts (attempts : Z) (c : SFTPConfig) : SFTPConfig :=
  mkSFTPConfig (host c) (username c) (root_dir c)
    (ssh_private_key_passphrase c) (ssh_private_key_path c)
    (min_test_file_size_bytes c) (max_test_file_size_bytes c)
    (num_test_files c) (connect_timeout_seconds c)
    (transfer_timeout_seconds c) (sftp_threads c) (sftp_sleep_interval c)
    (keep_alive_enabled c) attempts.

Definition setUserName (u : string) (c : SFTPConfig) : SFTPConfig :=
  mkSFTPConfig (host c) (Some u) (root_dir c)
    (ssh_private_key_passphrase c) (ssh_private_key_path c)
    (min_test_file_size_bytes c) (max_test_file_size_bytes c)
    (num_test_files c) (connect_timeout_seconds c)
    (transfer_timeout_seconds c) (sftp_threads c) (sftp_sleep_interval c)
    (keep_alive_enabled c) (retry_attempts c).

Definition setRootDir (root : string) (c : SFTPConfig) : SFTPConfig :=
  mkSFTPConfig (host c) (username c) root
    (ssh_private_key_passphrase c) (ssh_private_key_path c)
    (min_test_file_size_bytes c) (max_test_file_size_bytes c)
    (num_test_files c) (connect_timeout_seconds c)
    (transfer_timeout_seconds c) (sftp_threads c) (sftp_sleep_interval c)
    (keep_alive_enabled c) (retry_attempts c).

Definition setSshPrivateKeyPassPhrase (phrase : string) (c : SFTPConfig)
    : SFTPConfig :=
  mkSFTPConfig (host c) (username c) (root_dir c)
    (Some phrase) (ssh_private_key_path c)
    (min_test_file_size_bytes c) (max_test_file_size_bytes c)
    (num_test_files c) (connect_timeout_seconds c)
    (transfer_timeout_seconds c) (sftp_threads c) (sftp_sleep_interval c)
    (keep_alive_enabled c) (retry_attempts c).

Definition setSshPrivateKeyPath (path : string) (c : SFTPConfig)
    : SFTPConfig :=
  mkSFTPConfig (host c) (username c) (root_dir c)
    (ssh_private_key_passphrase c) (Some path)
    (min_test_file_size_bytes c) (max_test_file_size_bytes c)
    (num_test_files c) (connect_timeout_seconds c)
    (transfer_timeout_seconds c) (sftp_threads c) (sftp_sleep_interval c)
    (keep_alive_enabled c) (retry_attempts c).

Definition TransferTimeoutSeconds (timeout : Z) (c : SFTPConfig)
    : SFTPConfig :=
  mkSFTPConfig (host c) (username c) (root_dir c)
    (ssh_private_key_passphrase c) (ssh_private_key_path c)
    (min_test_file_size_bytes c) (max_test_file_size_bytes c)
    (num_test_files c) (connect_timeout_seconds c)
    timeout (sftp_threads c) (sftp_sleep_interval c)
    (keep_alive_enabled c) (retry_attempts c).

(** Python truthiness of an int, as in [if config.keep_alive_enabled:]. *)
Definition truthy (z : Z) : bool := negb (z =? 0).

(** ** Results of sftp_tester.py *)

Record FileStat := mkFileStat {
  name : string;
  size : Z;
  connect_time : Z;
  transfer_time : Z;
  success : bool;
  error : option string
}.

Record TestReport := mkTestReport { file_stats : list FileStat }.

(** [TestReport.add] *)
Definition add (report : TestReport) (stat : FileStat) : TestReport :=
  {| file_stats := file_stats report ++ [stat] |}.

(** ** Exceptions

    An exception is known by the call that raised it and by its message
    ([str(e)]).  Every one of them is a Python [Exception], so a bare
    [except Exception] catches them all. *)

Inductive origin :=
| AtMkdtemp          (* tempfile.mkdtemp *)
| AtRandint          (* random.randint on an empty range *)
| AtCreateRandomZip  (* anything inside create_random_zip *)
| AtCpuCount         (* os.cpu_count() returned None *)
| AtCreateClient     (* client.connect inside _create_client *)
| AtGetsize          (* os.path.getsize *)
| AtOpenSftp         (* client.open_sftp *)
| AtPut              (* sftp.put *)
| AtRemove           (* sftp.remove *)
| AtRmdir.           (* os.rmdir *)

Record exn := mkExn { raised_at : origin; message : string }.

(** The specification's SetupError: the scratch directory could not be made
    or a payload could not be written. *)
Definition is_setup_error (e : exn) : bool :=
  match raised_at e with
  | AtMkdtemp | AtCreateRandomZip => true
  | _ => false
  end.

Inductive result (A : Type) :=
| Ok (a : A)
| Raise (e : exn).
Arguments Ok {A} a.
Arguments Raise {A} e.

(** ** Sessions and the log of network calls *)

(** The identity of a [paramiko.SSHClient] object: one per slot of the pool
    made by [run_tests], or the one made inside the [sftp_operation] call
    for the artifact of a given index. *)
Inductive client :=
| Pooled (slot : nat)
| Ephemeral (idx : nat).

Inductive event :=
| Connect (c : client) (timeout : option Z) (ok : bool)
| OpenSftp (c : client) (ok : bool)
| Put (local_path remote_path : string) (ok : bool)
| Remove (remote_path : string) (ok : bool)
| SftpClose (c : client)
| ClientClose (c : client)
| Sleep (seconds : Z).

(** ** Local storage *)

(** A zip archive on local scratch storage: the number of bytes of its one
    member [data.bin], and the number of bytes of the archive itself, which
    is what [os.path.getsize] reports. *)
Record file := mkFile { payload_bytes : Z; disk_bytes : Z }.

(** ** The machine state and its monad *)

Record machine := mkMachine {
  now : Z;
  log : list event;
  fs : gmap string file;
  dirs : gset string;
  paths : list (string * string)
}.

Definition M (A : Type) : Type := machine → result A * machine.

Definition ret {A} (a : A) : M A := λ s, (Ok a, s).

Definition bind {A B} (m : M A) (k : A → M B) : M B :=
  λ s, match m s with
       | (Ok a, s') => k a s'
       | (Raise e, s') => (Raise e, s')
       end.

Definition raise {A} (e : exn) : M A := λ s, (Raise e, s).

(** [try: m  except Exception as e: ...]: the outcome of [m] as a value. *)
Definition attempt {A} (m : M A) : M (result A) :=
  λ s, match m s with (r, s') => (Ok r, s') end.

(** [try: body  finally: final].  An exception of [final] replaces the one
    of [body]. *)
Definition try_finally {A} (body : M A) (final : M unit) : M A :=
  λ s, match body s with
       | (r, s') =>
           match final s' with
           | (Ok _, s'') => (r, s'')
           | (Raise e, s'') => (Raise e, s'')
           end
       end.

#[global] Instance M_ret : MRet M := @ret.
#[global] Instance M_bind : MBind M := λ A B k m, bind m k.

(** [time.monotonic()] *)
Definition monotonic : M Z := λ s, (Ok (now s), s).

(** A blocking call that takes [d] ticks of the clock. *)
Definition tick (d : nat) : M unit :=
  λ s, (Ok tt, mkMachine (now s + Z.of_nat d) (log s) (fs s) (dirs s) (paths s)).

Definition emit (e : event) : M unit :=
  λ s, (Ok tt, mkMachine (now s) (log s ++ [e]) (fs s) (dirs s) (paths s)).

(** A call of the environment: it blocks for [d] ticks, is logged as [ev ok]
    and raises when the environment answers with a message. *)
Definition call (at_ : origin) (outcome : option string) (d : nat)
    (ev : bool → event) : M unit :=
  tick d ;;
  match outcome with
  | None => emit (ev true)
  | Some msg => emit (ev false) ;; raise (mkExn at_ msg)
  end.

(** Clock ticks per second, for [time.sleep]. *)
Definition ticks_per_second : Z := 1000.

(** [time.sleep(seconds)] *)
Definition sleep (seconds : Z) : M unit :=
  λ s, (Ok tt, mkMachine (now s + seconds * ticks_per_second)
                 (log s ++ [Sleep seconds]) (fs s) (dirs s) (paths s)).

(** [os.path.join] of two components (posixpath). *)
Definition ends_with_slash (a : string) : bool :=
  match String.get (String.length a - 1)%nat a with
  | Some c => bool_decide (c = "/"%char)
  | None => false
  end.

Definition os_path_join (a b : string) : string :=
  if String.prefix "/" b then b
  else if bool_decide (a = "") || ends_with_slash a then a +:+ b
  else a +:+ "/" +:+ b.

(** [os.path.getsize] *)
Definition getsize (path : string) : M Z :=
  λ s, match fs s !! path with
       | Some f => (Ok (disk_bytes f), s)
       | None => (Raise (mkExn AtGetsize "No such file or directory"), s)
       end.

(** ** What the environment answers *)

(** One [client.connect]. *)
Record ConnectBehaviour := mkConnect {
  connect_outcome : option string;
  connect_dur : nat
}.

(** The network calls of one [sftp_operation]: [None] is a call that
    returns, [Some msg] one that raises with that message. *)
Record Network := mkNetwork {
  conn : ConnectBehaviour;
  open_sftp_outcome : option string;
  open_sftp_dur : nat;
  tqdm_dur : nat;
  put_outcome : option string;
  put_dur : nat;
  remove_outcome : option string;
  remove_dur : nat;
  pbar_close_dur : nat;
  sftp_close_dur : nat;
  client_close_dur : nat
}.

(** ** _create_client and sftp_operation *)

(** The [timeout] argument that [_create_client] passes to
    [client.connect]; [None] is Python's [None], "block without timeout". *)
Definition connect_timeout_arg (config : SFTPConfig) : option Z :=
  if connect_timeout_seconds config =? -1 then None
  else Some (connect_timeout_seconds config).

(** [_create_client(config)]; [who] names the object it creates. *)
Definition _create_client (config : SFTPConfig) (who : client)
    (b : ConnectBehaviour) : M client :=
  call AtCreateClient (connect_outcome b) (connect_dur b)
       (Connect who (connect_timeout_arg config)) ;;
  ret who.

(** Lines 115-144 of [sftp_operation]: everything after the client is at
    hand. *)
Definition transfer (config : SFTPConfig) (net : Network)
    (local_path remote_name : string) (file_size : Z)
    (c : client) (connect_time : Z) : M FileStat :=
  call AtOpenSftp (open_sftp_outcome net) (open_sftp_dur net) (OpenSftp c) ;;
  start_transfer ← monotonic;
  tick (tqdm_dur net) ;;
  r ← attempt
        (call AtPut (put_outcome net) (put_dur net)
              (Put local_path (os_path_join (root_dir config) remote_name)) ;;
         call AtRemove (remove_outcome net) (remove_dur net)
              (Remove (os_path_join (root_dir config) remote_name)));
  tick (pbar_close_dur net) ;;
  t ← monotonic;
  tick (sftp_close_dur net) ;;
  emit (SftpClose c) ;;
  (if negb (truthy (keep_alive_enabled config))
   then tick (client_close_dur net) ;; emit (ClientClose c)
   else ret tt) ;;
  (if 0 <? sftp_sleep_interval config
   then sleep (sftp_sleep_interval config)
   else ret tt) ;;
  ret (match r with
       | Ok _ =>
           mkFileStat remote_name file_size connect_time (t - start_transfer)
                      true None
       | Raise e =>
           mkFileStat remote_name file_size connect_time (t - start_transfer)
                      false (Some (message e))
       end).

Definition sftp_operation (config : SFTPConfig) (net : Network)
    (local_path remote_name : string) (client : option client)
    (position : nat) : M FileStat :=
  file_size ← getsize local_path;
  match client with
  | None =>
      start_conn ← monotonic;
      r ← attempt (_create_client config (Ephemeral position) (conn net));
      t ← monotonic;
      match r with
      | Ok c =>
          transfer config net local_path remote_name file_size c
                   (t - start_conn)
      | Raise e =>
          ret (mkFileStat remote_name file_size (t - start_conn) 0 false
                          (Some (message e)))
      end
  | Some c =>
      transfer config net local_path remote_name file_size c 0
  end.

(** ** create_random_zip *)

(** What the local storage answers while one archive is written.  The three
    failure points are the three steps of [create_random_zip]: writing
    [data.bin] into a private temporary directory (lines 45-48), opening the
    destination with [zipfile.ZipFile(destination, "w")], which creates it
    (line 49), and [zf.write] (line 50). *)
Record ZipBehaviour := mkZip {
  data_write_failure : option string;
  zip_open_failure : option string;
  zip_write_failure : option string;
  compressed_len : nat
}.

(** Bytes of a zip archive around the compressed data of its single member
    named [data.bin]: local header 30+8, central directory entry 46+8, end
    of central directory 22 (no zip64 extras). *)
Definition zip_overhead : Z := 114.

Definition write_file (path : string) (f : file) : M unit :=
  λ s, (Ok tt, mkMachine (now s) (log s) (<[path := f]> (fs s)) (dirs s)
                 (paths s)).

(** [create_random_zip(destination, size)].  [os.urandom] refuses a
    negative size.  The private temporary directory of line 45 is gone when
    the function is left, on every path, and is not part of the state. *)
Definition create_random_zip (destination : string) (size : Z)
    (z : ZipBehaviour) : M unit :=
  if size <? 0
  then raise (mkExn AtCreateRandomZip "negative argument not allowed")
  else
    match data_write_failure z with
    | Some msg => raise (mkExn AtCreateRandomZip msg)
    | None =>
        match zip_open_failure z with
        | Some msg => raise (mkExn AtCreateRandomZip msg)
        | None =>
            match zip_write_failure z with
            | Some msg =>
                write_file destination (mkFile 0 (Z.of_nat (compressed_len z))) ;;
                raise (mkExn AtCreateRandomZip msg)
            | None =>
                write_file destination
                  (mkFile size (zip_overhead + Z.of_nat (compressed_len z)))
            end
        end
    end.

(** ** The environment of a whole run *)

Inductive answer (A : Type) :=
| Returns (a : A)
| Fails (msg : string).
Arguments Returns {A} a.
Arguments Fails {A} msg.

Record World := mkWorld {
  mkdtemp_answer : answer string;
  randint_raw : nat → nat;              (* randomness of the i-th draw *)
  zip_behaviour : nat → ZipBehaviour;   (* storage while artifact i is made *)
  cpu_count : option positive;          (* os.cpu_count() *)
  warm_up : nat → ConnectBehaviour;     (* connect of pool slot k *)
  network : nat → Network;              (* network calls of artifact idx *)
  started_at : nat → Z;                 (* clock when artifact idx starts *)
  pool_close_dur : nat → nat;           (* close of pool slot k *)
  schedule : list nat;                  (* interleaving of the workers *)
  completion : list nat                 (* order in which futures complete *)
}.

(** [random.randint(a, b)]: a value of [a..b], [ValueError] when the range
    is empty. *)
Definition randint (a b : Z) (raw : nat) : M Z :=
  if a <=? b then ret (a + Z.of_nat raw mod (b - a + 1))
  else raise (mkExn AtRandint "empty range for randrange()").

(** [tempfile.mkdtemp()] *)
Definition mkdtemp (w : World) : M string :=
  match mkdtemp_answer w with
  | Returns d =>
      λ s, (Ok d, mkMachine (now s) (log s) (fs s) ({[d]} ∪ dirs s) (paths s))
  | Fails msg => raise (mkExn AtMkdtemp msg)
  end.

Definition set_paths (ps : list (string * string)) : M unit :=
  λ s, (Ok tt, mkMachine (now s) (log s) (fs s) (dirs s) ps).

(** [paths.append(p)] *)
Definition paths_append (p : string * string) : M unit :=
  λ s, (Ok tt, mkMachine (now s) (log s) (fs s) (dirs s) (paths s ++ [p])).

Definition get_paths : M (list (string * string)) := λ s, (Ok (paths s), s).

(** f"test_{i}.zip" *)
Definition test_name (i : nat) : string := "test_" +:+ pretty i +:+ ".zip".

(** Lines 152-156: the loop over [range(config.num_test_files)]. *)
Fixpoint generate (config : SFTPConfig) (w : World) (temp_dir : string)
    (indices : list nat) : M unit :=
  match indices with
  | [] => ret tt
  | i :: rest =>
      size ← randint (min_test_file_size_bytes config)
                     (max_test_file_size_bytes config) (randint_raw w i);
      create_random_zip (os_path_join temp_dir (test_name i)) size
                        (zip_behaviour w i) ;;
      paths_append (os_path_join temp_dir (test_name i), test_name i) ;;
      generate config w temp_dir rest
  end.

(** Line 157.  When [os.cpu_count()] is [None] the next statement
    ([range(max_workers)] or [[None] * max_workers]) raises a TypeError
    before anything else happens. *)
Definition get_max_workers (config : SFTPConfig) (w : World) : M nat :=
  if 0 <? sftp_threads config then ret (Z.to_nat (sftp_threads config))
  else match cpu_count w with
       | Some p => ret (Pos.to_nat p)
       | None => raise (mkExn AtCpuCount "NoneType is not an integer")
       end.

(** Line 159: [[_create_client(config) for _ in range(max_workers)]]. *)
Fixpoint create_clients (config : SFTPConfig) (w : World)
    (slots : list nat) : M (list (option client)) :=
  match slots with
  | [] => ret []
  | k :: rest =>
      c ← _create_client config (Pooled k) (warm_up w k);
      cs ← create_clients config w rest;
      ret (Some c :: cs)
  end.

(** ** The thread pool *)

(** One worker step per entry of the schedule: the entry picks a thread,
    which performs its next call.  What is left when the schedule ends runs
    thread after thread. *)
Fixpoint interleave (sched : list nat) (threads : list (list event))
    : list event :=
  match sched with
  | [] => concat threads
  | k :: sched' =>
      match threads !! (k mod length threads)%nat with
      | Some (e :: es) =>
          e :: interleave sched' (<[(k mod length threads)%nat := es]> threads)
      | _ => interleave sched' threads
      end
  end.

(** [as_completed(futures)]: each pick names the pending future that is
    yielded next; what is left when the picks end is yielded in order. *)
Fixpoint as_completed {A} (picks : list nat) (pending : list A) : list A :=
  match picks with
  | [] => pending
  | k :: picks' =>
      match pending !! (k mod length pending)%nat with
      | Some x =>
          x :: as_completed picks' (delete (k mod length pending)%nat pending)
      | None => pending
      end
  end.

(** A submitted [sftp_operation]: it runs in a worker on the local files as
    they are at dispatch; its result is the future's result and its calls
    are its part of the log. *)
Definition run_future (config : SFTPConfig) (w : World) (s : machine)
    (max_workers : nat) (clients : list (option client))
    (idx : nat) (p : string * string) : result FileStat * list event :=
  match sftp_operation config (network w idx) (fst p) (snd p)
          (default None (clients !! (idx mod max_workers)%nat)) idx
          (mkMachine (started_at w idx) [] (fs s) (dirs s) (paths s)) with
  | (r, s') => (r, log s')
  end.

(** Lines 163-169 and the exit of the [with] block: every submitted call
    runs to its end, also when the loop over the futures is left by an
    exception ([shutdown(wait=True)]). *)
Definition executor (config : SFTPConfig) (w : World) (max_workers : nat)
    (clients : list (option client)) : M (list (result FileStat)) :=
  λ s,
    let futures := imap (run_future config w s max_workers clients) (paths s) in
    (Ok (fst <$> futures),
     mkMachine (now s) (log s ++ interleave (schedule w) (snd <$> futures))
               (fs s) (dirs s) (paths s)).

(** Lines 172-177: [future.result()] re-raises what the call raised. *)
Fixpoint collect (futures : list (result FileStat)) (report : TestReport)
    : M TestReport :=
  match futures with
  | [] => ret report
  | Ok stat :: rest => collect rest (add report stat)
  | Raise e :: _ => raise e
  end.

(** Lines 180-182 *)
Fixpoint close_clients (w : World) (k : nat) (clients : list (option client))
    : M unit :=
  match clients with
  | [] => ret tt
  | Some c :: rest =>
      tick (pool_close_dur w k) ;; emit (ClientClose c) ;;
      close_clients w (S k) rest
  | None :: rest => close_clients w (S k) rest
  end.

(** ** Cleanup of the scratch storage *)

(** Lines 184-186 *)
Fixpoint remove_paths (ps : list (string * string)) : M unit :=
  match ps with
  | [] => ret tt
  | (path, _) :: rest =>
      (λ s, (Ok tt, mkMachine (now s) (log s) (delete path (fs s)) (dirs s)
                      (paths s))) ;;
      remove_paths rest
  end.

Definition in_dir (d path : string) : bool :=
  String.prefix (if ends_with_slash d then d else d +:+ "/") path.

(** [os.rmdir]: refuses a directory that still has entries. *)
Definition rmdir (d : string) : M unit :=
  λ s, if existsb (in_dir d) (fst <$> map_to_list (fs s))
       then (Raise (mkExn AtRmdir "Directory not empty"), s)
       else if bool_decide (d ∈ dirs s)
       then (Ok tt, mkMachine (now s) (log s) (fs s) (dirs s ∖ {[d]}) (paths s))
       else (Raise (mkExn AtRmdir "No such file or directory"), s).

(** ** run_tests *)

(** The body of the [try] of [run_tests], lines 152-182. *)
Definition try_block (config : SFTPConfig) (w : World) (temp_dir : string)
    : M TestReport :=
  generate config w temp_dir (seq 0 (Z.to_nat (num_test_files config))) ;;
  max_workers ← get_max_workers config w;
  clients ← (if truthy (keep_alive_enabled config)
             then create_clients config w (seq 0 max_workers)
             else ret (replicate max_workers None));
  futures ← executor config w max_workers clients;
  report ← collect (as_completed (completion w) futures) (mkTestReport []);
  (if truthy (keep_alive_enabled config)
   then close_clients w 0 clients
   else ret tt) ;;
  ret report.

(** The [finally] of [run_tests], lines 184-187. *)
Definition finally_block (temp_dir : string) : M unit :=
  ps ← get_paths;
  remove_paths ps ;;
  rmdir temp_dir.

Definition run_tests (config : SFTPConfig) (w : World) : M TestReport :=
  temp_dir ← mkdtemp w;
  set_paths [] ;;
  try_finally (try_block config w temp_dir) (finally_block temp_dir).

(** The machine before a run: nothing logged, the given local storage. *)
Definition boot (files : gmap string file) (directories : gset string)
    : machine :=
  mkMachine 0 [] files directories [].

(** ** Counting sessions in a log *)

Definition count (p : event → bool) (tr : list event) : nat :=
  length (List.filter p tr).

Definition is_connect_attempt (e : event) : bool :=
  match e with Connect _ _ _ => true | _ => false end.

Definition is_session_open (e : event) : bool :=
  match e with Connect _ _ ok => ok | _ => false end.

Definition is_session_close (e : event) : bool :=
  match e with ClientClose _ => true | _ => false end.

Definition is_put (e : event) : bool :=
  match e with Put _ _ _ => true | _ => false end.

Definition is_sleep (e : event) : bool :=
  match e with Sleep _ => true | _ => false end.

(** ** Names for the parts of a run *)

(** The entry of [paths] for the artifact of index [i] (line 156). *)
Definition artifact (temp_dir : string) (i : nat) : string * string :=
  (os_path_join temp_dir (test_name i), test_name i).

(** The value of [clients] once lines 158-161 are done. *)
Definition pool (config : SFTPConfig) (max_workers : nat)
    : list (option client) :=
  if truthy (keep_alive_enabled config)
  then (λ k, Some (Pooled k)) <$> seq 0 max_workers
  else replicate max_workers None.

(** The calls of lines 158-159 and of lines 180-182 in a run in which every
    one of them returns. *)
Definition warm_up_log (config : SFTPConfig) (max_workers : nat)
    : list event :=
  if truthy (keep_alive_enabled config)
  then (λ k, Connect (Pooled k) (connect_timeout_arg config) true)
         <$> seq 0 max_workers
  else [].

Definition pool_close_log (config : SFTPConfig) (max_workers : nat)
    : list event :=
  if truthy (keep_alive_enabled config)
  then (λ k, ClientClose (Pooled k)) <$> seq 0 max_workers
  else [].

(** The machine right after [tempfile.mkdtemp()] returned [d] and [paths]
    was set to the empty list (lines 148-150). *)
Definition entered (d : string) (s : machine) : machine :=
  mkMachine (now s) (log s) (fs s) ({[d]} ∪ dirs s) [].

(** [future.result()] of a future whose call returned. *)
Definition returned {A} (r : result A) : option A :=
  match r with Ok a => Some a | Raise _ => None end.

(** The futures of a run whose scratch directory is [d], in the order of
    submission: the results and the calls of each. *)
Definition futures_of (config : SFTPConfig) (w : World) (d : string)
    (max_workers : nat) (s : machine) : list (result FileStat * list event) :=
  (λ i, run_future config w s max_workers (pool config max_workers) i
          (artifact d i))
    <$> seq 0 (Z.to_nat (num_test_files config)).

(** ** Concrete environments and configurations *)

(** A network on which every call returns: connect takes 3 ticks, opening
    the channel 1, the upload 2, the remote delete 3, closing the channel 1
    and closing the client 1. *)
Definition quiet : Network :=
  mkNetwork (mkConnect None 3) None 1 0 None 2 None 3 0 1 1.

(** The same network with a server that refuses the connection. *)
Definition refusing : Network :=
  mkNetwork (mkConnect (Some "Connection refused") 3) None 1 0 None 2 None 3
            0 1 1.

(** The same network with a server that accepts the connection and refuses
    the SFTP subsystem. *)
Definition no_subsystem : Network :=
  mkNetwork (mkConnect None 3) (Some "Channel closed") 1 0 None 2 None 3
            0 1 1.

(** A machine with four processors on which nothing fails; every archive
    compresses to 2 bytes of data. *)
Definition calm : World :=
  mkWorld (Returns "/tmp/tmpab12") (λ _, 0%nat) (λ _, mkZip None None None 2)
          (Some 4%positive) (λ _, mkConnect None 3) (λ _, quiet) (λ _, 0)
          (λ _, 1%nat) [] [].

(** [calm] with another network for every artifact. *)
Definition on_network (net : Network) : World :=
  mkWorld (mkdtemp_answer calm) (randint_raw calm) (zip_behaviour calm)
          (cpu_count calm) (warm_up calm) (λ _, net) (started_at calm)
          (pool_close_dur calm) (schedule calm) (completion calm).

(** [calm] with a server that refuses the connections of the pool. *)
Definition cold : World :=
  mkWorld (mkdtemp_answer calm) (randint_raw calm) (zip_behaviour calm)
          (cpu_count calm) (λ _, mkConnect (Some "Connection refused") 3)
          (network calm) (started_at calm)
          (pool_close_dur calm) (schedule calm) (completion calm).

(** [calm] with scratch storage that runs full while the first archive is
    written. *)
Definition disk_full : World :=
  mkWorld (mkdtemp_answer calm) (randint_raw calm)
          (λ _, mkZip None None (Some "No space left on device") 2)
          (cpu_count calm) (warm_up calm) (network calm) (started_at calm)
          (pool_close_dur calm) (schedule calm) (completion calm).

(** [calm] with a draw of its own for every artifact: 7 for the first, 12
    for the second, and so on. *)
Definition drawing : World :=
  mkWorld (mkdtemp_answer calm) (λ i, (7 + 5 * i)%nat) (zip_behaviour calm)
          (cpu_count calm) (warm_up calm) (network calm) (started_at calm)
          (pool_close_dur calm) (schedule calm) (completion calm).

(** [calm] with scratch storage on which the payload of the second artifact
    cannot be written: [data.bin] fails, before the archive is opened. *)
Definition second_payload_fails : World :=
  mkWorld (mkdtemp_answer calm) (randint_raw calm)
          (λ i, match i with
                | 1%nat => mkZip (Some "No space left on device") None None 2
                | _ => mkZip None None None 2
                end)
          (cpu_count calm) (warm_up calm) (network calm) (started_at calm)
          (pool_close_dur calm) (schedule calm) (completion calm).

(** Two files of 10 to 20 payload bytes each. *)
Definition two_small_payloads : SFTPConfig :=
  numTestFiles 2 (minTestFileSizeBytes 10 (maxTestFileSizeBytes 20
    (setHost "sftp.example.org" SFTPConfig_init))).

(** The default configuration for a host, with empty payloads. *)
Definition empty_payloads : SFTPConfig :=
  minTestFileSizeBytes 0 (maxTestFileSizeBytes 0
    (setHost "sftp.example.org" SFTPConfig_init)).

(** The outcome of a run, as a report when it completed. *)
Definition report_of (x : result TestReport * machine) : TestReport :=
  match fst x with Ok r => r | Raise _ => mkTestReport [] end.

(** A scratch file as [create_random_zip] leaves it for an empty payload. *)
Definition small_zip : file := mkFile 0 116.

(** ** More about the log *)

Definition is_remove (e : event) : bool :=
  match e with Remove _ _ => true | _ => false end.

(** An upload that went through. *)
Definition is_uploaded (e : event) : bool :=
  match e with Put _ _ ok => ok | _ => false end.

Definition is_channel_open (e : event) : bool :=
  match e with OpenSftp _ _ => true | _ => false end.

(** A remote delete that went through. *)
Definition is_removed (e : event) : bool :=
  match e with Remove _ ok => ok | _ => false end.

(** The number of successful outcomes of a report. *)
Definition successes (report : TestReport) : nat :=
  length (List.filter success (file_stats report)).

(** The client that a network call is made on. *)
Definition client_of (e : event) : option client :=
  match e with
  | Connect c _ _ | OpenSftp c _ | SftpClose c | ClientClose c => Some c
  | Put _ _ _ | Remove _ _ | Sleep _ => None
  end.

(** Whether a call of [sftp_operation] gets a client to work with: the one
    it is given, or the one it connects itself. *)
Definition has_client (net : Network) (client : option client) : bool :=
  match client, connect_outcome (conn net) with
  | None, Some _ => false
  | _, _ => true
  end.

(** ** _validate_private_key *)

(** The key classes whose [from_private_key_file] is tried, in the order of
    the list [loaders] of lines 59-64. *)
Inductive loader := RSAKey | ECDSAKey | Ed25519Key | DSSKey.

Definition loaders : list loader := [RSAKey; ECDSAKey; Ed25519Key; DSSKey].

(** What one [from_private_key_file] does.  The exceptions are told apart
    the way the [except] clauses of lines 71-78 tell them apart, in their
    order: a [PasswordRequiredException] is an [SSHException], but its own
    clause comes first. *)
Inductive key_load :=
| KeyLoaded
| RaisesFileNotFound
| RaisesPasswordRequired
| RaisesSSHException           (* an SSHException of any other kind *)
| RaisesOther (msg : string).  (* an exception that no clause catches *)

Inductive level := INFO | WARNING | ERROR.

(** How a check ends: with the value it returns, or with the exception
    that leaves it. *)
Inductive verdict :=
| Returned (valid : bool)
| Escaped (msg : string).

(** A check: how it ended, the loaders it called, in order, and what it
    logged. *)
Record key_check := mkKeyCheck {
  ended : verdict;
  called : list loader;
  logged : list (level * string)
}.

(** The loop of lines 66-78 and what follows it. *)
Fixpoint try_loaders (load : loader → key_load) (qualname : loader → string)
    (path : string) (ls : list loader) : key_check :=
  match ls with
  | [] =>
      mkKeyCheck (Returned false) []
        [(ERROR, "Unable to load the private key; unsupported format or bad passphrase")]
  | l :: rest =>
      match load l with
      | KeyLoaded =>
          mkKeyCheck (Returned true) [l]
            [(INFO, "Successfully loaded private key with " +:+ qualname l)]
      | RaisesFileNotFound =>
          mkKeyCheck (Returned false) [l]
            [(ERROR, "Private key file not found: " +:+ path)]
      | RaisesPasswordRequired =>
          mkKeyCheck (Returned false) [l]
            [(ERROR, "Private key is encrypted; passphrase missing or invalid")]
      | RaisesSSHException =>
          let r := try_loaders load qualname path rest in
          mkKeyCheck (ended r) (l :: called r) (logged r)
      | RaisesOther msg => mkKeyCheck (Escaped msg) [l] []
      end
  end.

(** [_validate_private_key(config)].  [load path passphrase l] is what the
    loader [l] does with the key file and the passphrase of the
    configuration; [qualname l] is its [__qualname__]. *)
Definition _validate_private_key (config : SFTPConfig)
    (load : string → option string → loader → key_load)
    (qualname : loader → string) : key_check :=
  match ssh_private_key_path config with
  | None | Some "" =>
      mkKeyCheck (Returned false) [] [(WARNING, "No private key path specified")]
  | Some path =>
      try_loaders (load path (ssh_private_key_passphrase config)) qualname
                  path loaders
  end.

(** The verdict that a loader settles when it does not raise a plain
    [SSHException]. *)
Definition settles (k : key_load) : verdict :=
  match k with
  | KeyLoaded => Returned true
  | RaisesOther msg => Escaped msg
  | _ => Returned false
  end.

(** A key store for the examples: an Ed25519 key without passphrase. *)
Definition ed25519_only (path : string) (passphrase : option string)
    (l : loader) : key_load :=
  match l with
  | Ed25519Key => KeyLoaded
  | _ => RaisesSSHException
  end.

(** ** SFTPConfig.from_yaml *)

(** A Python float: a finite binary fraction, an infinity or a NaN. *)
Inductive pyfloat :=
| Finite (mantissa exponent : Z)
| Infinity (negative : bool)
| NaN.

(** The values that [yaml.safe_load] builds. *)
#[local] Unset Elimination Schemes.
Inductive yaml :=
| YNull
| YBool (b : bool)
| YInt (z : Z)
| YFloat (f : pyfloat)
| YStr (s : string)
| YBytes (b : string)
| YDate (iso : string)
| YSeq (items : list yaml)
| YSet (items : list yaml)
| YMap (items : list (yaml * yaml)).   (* [data.items()], in order *)
#[local] Set Elimination Schemes.

(** Python truthiness, as in [yaml.safe_load(f) or {}]. *)
Definition py_truthy (y : yaml) : bool :=
  match y with
  | YNull => false
  | YBool b => b
  | YInt z => negb (z =? 0)
  | YFloat (Finite m _) => negb (m =? 0)
  | YFloat _ => true
  | YStr s | YBytes s => negb (bool_decide (s = ""))
  | YDate _ => true
  | YSeq l | YSet l => negb (bool_decide (l = []))
  | YMap l => negb (bool_decide (l = []))
  end.

(** An instance of [SFTPConfig] as Python has it: the dictionary of its
    attributes, with values of any type.  [SFTPConfig_new] is the instance
    that [__init__] leaves. *)
Abbreviation instance := (gmap string yaml).

Definition field_names : list string :=
  ["host"; "username"; "root_dir"; "ssh_private_key_passphrase";
   "ssh_private_key_path"; "min_test_file_size_bytes";
   "max_test_file_size_bytes"; "num_test_files"; "connect_timeout_seconds";
   "transfer_timeout_seconds"; "sftp_threads"; "sftp_sleep_interval";
   "keep_alive_enabled"; "retry_attempts"].

Definition SFTPConfig_new : instance :=
  list_to_map
    [("host", YNull); ("username", YNull); ("root_dir", YStr "/");
     ("ssh_private_key_passphrase", YNull);
     ("ssh_private_key_path", YNull);
     ("min_test_file_size_bytes", YInt 6000);
     ("max_test_file_size_bytes", YInt 64000000);
     ("num_test_files", YInt 1);
     ("connect_timeout_seconds", YInt 20);
     ("transfer_timeout_seconds", YInt 20);
     ("sftp_threads", YInt 1);
     ("sftp_sleep_interval", YInt (-1));
     ("keep_alive_enabled", YInt 0);
     ("retry_attempts", YInt 0)].

(** The names that the body of the class defines: its methods.  Each is a
    function or a classmethod, so that an assignment to an instance
    attribute of that name is stored in the instance and hides the
    method. *)
Definition class_names : list string :=
  ["__init__"; "from_yaml"; "setHost"; "setUserName"; "setRootDir";
   "setSshPrivateKeyPassPhrase"; "setSshPrivateKeyPath";
   "minTestFileSizeBytes"; "maxTestFileSizeBytes"; "numTestFiles";
   "ConnectTimeoutSeconds"; "TransferTimeoutSeconds"; "sftpThreads";
   "sftpSleepInterval"; "keepAliveEnabled"; "retryAttempts"].

Inductive setattr_outcome :=
| Stored (cfg : instance)
| SetattrRaises (exc : string).

(** What Python does with the attribute names that every object has
    ([__class__], [__dict__], [__doc__], ...): whether [hasattr] finds the
    name, and what [setattr] does with it. *)
Record Runtime := mkRuntime {
  object_has : string → bool;
  object_setattr : string → yaml → instance → setattr_outcome
}.

Inductive load_error :=
| OpenError (msg : string)       (* [open(path)] raised *)
| YamlError (msg : string)       (* [yaml.safe_load] raised *)
| NoItems                        (* AttributeError: no [items] *)
| KeyNotString                   (* TypeError of [hasattr] *)
| SetattrError (exc : string).   (* [setattr] raised *)

Inductive loaded :=
| Config (cfg : instance)
| LoadRaises (e : load_error).

(** What reading the file gives. *)
Inductive file_answer :=
| OpenFails (msg : string)
| ParseFails (msg : string)
| Parsed (doc : yaml).

(** [hasattr(cfg, k)] for a string [k]. *)
Definition hasattr (rt : Runtime) (cfg : instance) (k : string) : bool :=
  bool_decide (is_Some (cfg !! k)) || bool_decide (k ∈ class_names)
  || object_has rt k.

(** [setattr(cfg, k, value)] for a string [k]: an assignment to a field or
    to the name of a method is stored in the instance. *)
Definition setattr (rt : Runtime) (cfg : instance) (k : string)
    (value : yaml) : setattr_outcome :=
  if bool_decide (is_Some (cfg !! k)) || bool_decide (k ∈ class_names)
  then Stored (<[k := value]> cfg)
  else object_setattr rt k value cfg.

(** Lines 28-29 for one item.  [hasattr] refuses a name that is not a
    string. *)
Definition set_item (rt : Runtime) (cfg : instance) (key value : yaml)
    : loaded :=
  match key with
  | YStr k =>
      if hasattr rt cfg k
      then match setattr rt cfg k value with
           | Stored cfg' => Config cfg'
           | SetattrRaises exc => LoadRaises (SetattrError exc)
           end
      else Config cfg
  | _ => LoadRaises KeyNotString
  end.

(** The loop of lines 27-29. *)
Fixpoint set_items (rt : Runtime) (cfg : instance)
    (items : list (yaml * yaml)) : loaded :=
  match items with
  | [] => Config cfg
  | (key, value) :: rest =>
      match set_item rt cfg key value with
      | Config cfg' => set_items rt cfg' rest
      | LoadRaises e => LoadRaises e
      end
  end.

(** [SFTPConfig.from_yaml(path)] *)
Definition from_yaml (rt : Runtime) (file : file_answer) : loaded :=
  match file with
  | OpenFails msg => LoadRaises (OpenError msg)
  | ParseFails msg => LoadRaises (YamlError msg)
  | Parsed doc =>
      match (if py_truthy doc then doc else YMap []) with
      | YMap items => set_items rt SFTPConfig_new items
      | _ => LoadRaises NoItems
      end
  end.

(** Items whose keys are strings that name a field, or name nothing that
    the instance has. *)
Definition plain_items (rt : Runtime) (items : list (yaml * yaml)) : Prop :=
  ∀ k v, (k, v) ∈ items →
    ∃ s, k = YStr s ∧
         (s ∈ field_names ∨ ((s ∉ class_names) ∧ object_has rt s = false)).

(** A Python in which a fresh [SFTPConfig] has no attribute besides its
    fields and its methods. *)
Definition bare : Runtime := mkRuntime (λ _, false) (λ _ _ cfg, Stored cfg).

(** ** TestReport.to_text *)

(** The line feed. *)
Definition LF : string := String "010"%char "".

(** [str(b)] of a bool. *)
Definition str_bool (b : bool) : string := if b then "True" else "False".

(** Python truthiness of [stat.error]: [None] and the empty string are
    false. *)
Definition has_error (stat : FileStat) : bool :=
  match error stat with
  | Some msg => negb (bool_decide (msg = ""))
  | None => false
  end.

(** The line of one outcome (lines 36-40).  [fmt2] is the format [:.2f] of
    a duration. *)
Definition stat_line (fmt2 : Z → string) (stat : FileStat) : string :=
  "File: " +:+ name stat +:+ " Size: " +:+ pretty (size stat)
  +:+ " bytes Success: " +:+ str_bool (success stat)
  +:+ " ConnectTime: " +:+ fmt2 (connect_time stat)
  +:+ "s TransferTime: " +:+ fmt2 (transfer_time stat) +:+ "s"
  +:+ (if has_error stat then " Error: " +:+ default "" (error stat) else "").

(** ["\n".join(lines)] *)
Fixpoint join_lines (lines : list string) : string :=
  match lines with
  | [] => ""
  | [l] => l
  | l :: rest => l +:+ LF +:+ join_lines rest
  end.

(** [TestReport.to_text] *)
Definition to_text (fmt2 : Z → string) (report : TestReport) : string :=
  join_lines (["SFTP Test Report"; "================="]
              ++ (stat_line fmt2 <$> file_stats report)).

(** * Properties *)

(** ** Lists of events *)

Lemma count_app p (l1 l2 : list event) :
  count p (l1 ++ l2) = (count p l1 + count p l2)%nat.
Proof. unfold count. by rewrite List.filter_app, length_app. Qed.

Lemma count_Permutation p (l1 l2 : list event) :
  l1 ≡ₚ l2 → count p l1 = count p l2.
Proof.
  unfold count. induction 1 as [|x l l' _ IH|x y l|l l' l'' _ IH1 _ IH2];
    simpl; [done| |by destruct (p x), (p y)|congruence].
  destruct (p x); simpl; congruence.
Qed.

Lemma count_concat p (ls : list (list event)) :
  count p (concat ls) = sum_list (count p <$> ls).
Proof.
  induction ls as [|l ls IH]; [done|].
  simpl. by rewrite count_app, IH.
Qed.

Lemma concat_take_head (ts : list (list event)) i e es :
  ts !! i = Some (e :: es) → concat ts ≡ₚ e :: concat (<[i := es]> ts).
Proof.
  revert i. induction ts as [|t ts IH]; intros [|i] H; simplify_eq/=.
  - done.
  - rewrite (IH _ H). by rewrite Permutation_middle.
Qed.

Lemma interleave_Permutation sched (ts : list (list event)) :
  interleave sched ts ≡ₚ concat ts.
Proof.
  revert ts. induction sched as [|k sched IH]; intros ts; simpl; [done|].
  destruct (ts !! (k mod length ts)%nat) as [[|e es]|] eqn:H; [done| |done].
  by rewrite IH, (concat_take_head _ _ _ _ H).
Qed.

Lemma as_completed_Permutation {A} picks (l : list A) :
  as_completed picks l ≡ₚ l.
Proof.
  revert l. induction picks as [|k picks IH]; intros l; simpl; [done|].
  destruct (l !! (k mod length l)%nat) as [x|] eqn:H; [|done].
  etrans; [apply Permutation_skip, IH|].
  symmetry. by apply delete_Permutation.
Qed.

(** ** Names of the artifacts *)

Lemma string_length_app (a b : string) :
  String.length (a +:+ b) = (String.length a + String.length b)%nat.
Proof. induction a as [|c a IH]; simpl; [done|by rewrite IH]. Qed.

Lemma string_app_inj_r (a b s : string) : a +:+ s = b +:+ s → a = b.
Proof.
  revert b. induction a as [|c a IH]; intros [|c' b] H; simpl in H.
  - done.
  - apply (f_equal String.length) in H.
    rewrite !string_length_app in H. simpl in H. lia.
  - apply (f_equal String.length) in H.
    rewrite !string_length_app in H. simpl in H. lia.
  - injection H as -> H. f_equal. by apply IH.
Qed.

Lemma test_name_inj i j : test_name i = test_name j → i = j.
Proof.
  unfold test_name. intros H.
  apply (inj (String.app "test_")) in H.
  apply string_app_inj_r in H. by apply (inj pretty) in H.
Qed.

Lemma os_path_join_test_name_inj d i j :
  os_path_join d (test_name i) = os_path_join d (test_name j) → i = j.
Proof.
  unfold os_path_join. simpl.
  destruct (bool_decide (d = "") || ends_with_slash d); intros H.
  - by apply (inj (String.app d)), test_name_inj in H.
  - by apply (inj (String.app d)), (inj (String.app "/")), test_name_inj in H.
Qed.

Lemma NoDup_test_names n : NoDup (test_name <$> seq 0 n).
Proof.
  apply NoDup_fmap_2_strong; [|apply NoDup_seq].
  intros i j _ _. apply test_name_inj.
Qed.

(** ** One call of sftp_operation *)

Ltac unfold_M :=
  unfold sftp_operation, transfer, _create_client, call, attempt, getsize,
    monotonic, tick, emit, sleep, raise, mbind, M_bind, bind, mret, M_ret, ret.

Ltac reduce_M :=
  cbv beta iota zeta delta
    [sftp_operation transfer _create_client call attempt getsize monotonic
     tick emit sleep raise mbind M_bind bind mret M_ret ret negb];
  cbn [now log fs dirs paths
       name size connect_time transfer_time success error].

(** Follow the code along every answer of the environment: each stuck
    [match] is a call (or a switch of the configuration) whose outcome is
    then taken apart. *)
Ltac run_M :=
  reduce_M;
  try match goal with
      | |- context [match ?x with _ => _ end] =>
          lazymatch x with
          | context [match _ with _ => _ end] => fail
          | _ => destruct x eqn:?; run_M
          end
      end.

Ltac counting :=
  rewrite ?count_app;
  cbn [count List.filter length is_connect_attempt is_session_open
       is_session_close is_put is_sleep is_remove is_uploaded
       is_channel_open is_removed];
  try lia.

Lemma sftp_operation_stat config net lp rn cl pos s stat s' :
  sftp_operation config net lp rn cl pos s = (Ok stat, s') →
  ∃ f, fs s !! lp = Some f ∧ name stat = rn ∧ size stat = disk_bytes f.
Proof.
  destruct cl; run_M; intros [= <- <-]; eexists; reduce_M; done.
Qed.

Lemma sftp_operation_storage config net lp rn cl pos s r s' :
  sftp_operation config net lp rn cl pos s = (r, s') →
  fs s' = fs s ∧ dirs s' = dirs s ∧ paths s' = paths s.
Proof.
  destruct cl; run_M; intros [= <- <-]; reduce_M; done.
Qed.

(** Without keep-alive a call that returns made one connect attempt and
    closed the session exactly when the connect had succeeded. *)
Lemma ephemeral_sessions config net lp rn pos s stat s' :
  truthy (keep_alive_enabled config) = false →
  sftp_operation config net lp rn None pos s = (Ok stat, s') →
  count is_connect_attempt (log s') = S (count is_connect_attempt (log s)) ∧
  (count is_session_close (log s') + count is_session_open (log s)
   = count is_session_close (log s) + count is_session_open (log s'))%nat.
Proof.
  intros Hk. unfold_M. rewrite Hk.
  run_M; intros [= <- <-]; reduce_M; split; counting.
Qed.

(** With keep-alive a call on a pooled client neither connects nor closes a
    session, whatever its result. *)
Lemma pooled_sessions config net lp rn c pos s r s' :
  truthy (keep_alive_enabled config) = true →
  sftp_operation config net lp rn (Some c) pos s = (r, s') →
  count is_connect_attempt (log s') = count is_connect_attempt (log s) ∧
  count is_session_open (log s') = count is_session_open (log s) ∧
  count is_session_close (log s') = count is_session_close (log s).
Proof.
  intros Hk. unfold_M. rewrite Hk.
  run_M; intros [= <- <-]; reduce_M; repeat split; counting.
Qed.

(** One call connects at most once and uploads at most once. *)
Lemma at_most_once config net lp rn cl pos s r s' :
  sftp_operation config net lp rn cl pos s = (r, s') →
  (count is_connect_attempt (log s') ≤ S (count is_connect_attempt (log s)))%nat ∧
  (count is_put (log s') ≤ S (count is_put (log s)))%nat.
Proof.
  destruct cl; run_M; intros [= <- <-]; reduce_M; split; counting.
Qed.

(** ** The parts of run_tests *)

Ltac unfold_run :=
  unfold randint, create_random_zip, write_file, paths_append, set_paths,
    get_paths, mkdtemp, get_max_workers, executor, rmdir,
    _create_client, call, tick, emit, raise,
    mbind, M_bind, bind, mret, M_ret, ret.

(** [random.randint(a, b)] favours no value: a value is returned exactly
    when it lies in the range and the draw of the environment is in its
    residue class, one class of the [b - a + 1] for each value. *)
Lemma randint_unbiased a b raw v t :
  a ≤ b →
  randint a b raw t = (Ok v, t) ↔
  a ≤ v ≤ b ∧ (Z.of_nat raw - (v - a)) mod (b - a + 1) = 0.
Proof.
  intros Hab. unfold randint, mret, M_ret, ret.
  rewrite (proj2 (Z.leb_le a b) Hab).
  pose proof (Z.mod_pos_bound (Z.of_nat raw) (b - a + 1)) as Hbound.
  pose proof (Z.div_mod (Z.of_nat raw) (b - a + 1)) as Hdiv.
  split.
  - intros [= <-]. split; [lia|].
    replace (Z.of_nat raw - (a + Z.of_nat raw mod (b - a + 1) - a))
      with (Z.of_nat raw / (b - a + 1) * (b - a + 1)) by lia.
    apply Z.mod_mul. lia.
  - intros [Hv Hmod]. do 2 f_equal.
    apply Z.mod_divide in Hmod as [q Hq]; [|lia].
    assert (v - a = Z.of_nat raw mod (b - a + 1)) as Hr; [|lia].
    apply (Z.mod_unique_pos _ _ q); lia.
Qed.

Lemma generate_Ok config w d idxs s s' :
  generate config w d idxs s = (Ok tt, s') →
  paths s' = (paths s ++
    ((λ i, (os_path_join d (test_name i), test_name i)) <$> idxs))%list ∧
  log s' = log s ∧ dirs s' = dirs s ∧ now s' = now s.
Proof.
  revert s. induction idxs as [|i idxs IH]; intros s; simpl.
  - unfold_run. intros [= <-]. by rewrite app_nil_r.
  - unfold_run.
    destruct (_ <=? _); [|done].
    destruct (_ <? 0); [done|].
    destruct (data_write_failure _); [done|].
    destruct (zip_open_failure _); [done|].
    destruct (zip_write_failure _); [done|].
    intros H. apply IH in H as (-> & -> & -> & ->). simpl.
    by rewrite <-app_assoc.
Qed.

Lemma generate_other_files config w d idxs s r s' p :
  generate config w d idxs s = (r, s') →
  (∀ i, i ∈ idxs → p ≠ os_path_join d (test_name i)) →
  fs s' !! p = fs s !! p.
Proof.
  revert s. induction idxs as [|i idxs IH]; intros s; simpl.
  - unfold_run. by intros [= <- <-].
  - intros H Hp.
    assert (p ≠ os_path_join d (test_name i)) as Hi by (apply Hp; left).
    assert (∀ j, j ∈ idxs → p ≠ os_path_join d (test_name j)) as Hrest
      by (intros j Hj; apply Hp; by right).
    revert H. unfold_run.
    destruct (_ <=? _); [|by intros [= <- <-]].
    destruct (_ <? 0); [by intros [= <- <-]|].
    destruct (data_write_failure _); [by intros [= <- <-]|].
    destruct (zip_open_failure _); [by intros [= <- <-]|].
    destruct (zip_write_failure _).
    + intros [= <- <-]. cbn [fs]. by rewrite lookup_insert_ne.
    + intros H. rewrite (IH _ H Hrest). cbn [fs]. by rewrite lookup_insert_ne.
Qed.

(** What [generate] leaves on storage for each artifact it made: the number
    of payload bytes is the one drawn by [random.randint], hence within the
    configured bounds, and the archive is larger by the zip overhead. *)
Lemma generate_files config w d idxs s s' :
  NoDup idxs →
  generate config w d idxs s = (Ok tt, s') →
  ∀ i, i ∈ idxs →
    ∃ f, fs s' !! os_path_join d (test_name i) = Some f ∧
         (∀ t, randint (min_test_file_size_bytes config)
                 (max_test_file_size_bytes config) (randint_raw w i) t
               = (Ok (payload_bytes f), t)) ∧
         min_test_file_size_bytes config ≤ payload_bytes f
           ≤ max_test_file_size_bytes config ∧
         disk_bytes f
           = zip_overhead + Z.of_nat (compressed_len (zip_behaviour w i)).
Proof.
  intros Hnd. revert s.
  induction Hnd as [|i idxs Hi Hnd IH]; intros s H j Hj.
  { by apply elem_of_nil in Hj. }
  simpl in H.
  unfold randint, create_random_zip, write_file, paths_append, raise,
    mbind, M_bind, bind, mret, M_ret, ret in H.
  destruct (min_test_file_size_bytes config
            <=? max_test_file_size_bytes config) eqn:Hdraw; [|done].
  pose proof Hdraw as Hle. apply Z.leb_le in Hle.
  destruct (_ <? 0); [done|].
  destruct (data_write_failure _); [done|].
  destruct (zip_open_failure _); [done|].
  destruct (zip_write_failure _); [done|].
  apply elem_of_cons in Hj as [->|Hj]; [|by eapply IH].
  eexists. split.
  { erewrite generate_other_files; [|exact H|].
    - cbn [fs]. apply lookup_insert_eq.
    - intros k Hk Heq. apply os_path_join_test_name_inj in Heq. by subst. }
  split; [intros t; unfold randint; by rewrite Hdraw|].
  split; [|reflexivity]. cbn [payload_bytes].
  pose proof (Z.mod_pos_bound (Z.of_nat (randint_raw w i))
    (max_test_file_size_bytes config - min_test_file_size_bytes config + 1)).
  lia.
Qed.

Lemma create_clients_Ok config w slots s cs s' :
  create_clients config w slots s = (Ok cs, s') →
  cs = (λ k, Some (Pooled k)) <$> slots ∧
  log s' = (log s ++
    ((λ k, Connect (Pooled k) (connect_timeout_arg config) true) <$> slots))%list ∧
  fs s' = fs s ∧ dirs s' = dirs s ∧ paths s' = paths s.
Proof.
  revert s cs. induction slots as [|k slots IH]; intros s cs; simpl.
  - unfold_run. intros [= <- <-]. by rewrite app_nil_r.
  - unfold_run. destruct (connect_outcome _); [done|].
    destruct (create_clients _ _ _ _) as [[cs'|e] s1] eqn:H; [|done].
    intros [= <- <-]. apply IH in H as (-> & -> & -> & -> & ->). simpl.
    by rewrite <-app_assoc.
Qed.

Lemma close_clients_pool w k slots s :
  ∃ s', close_clients w k ((λ k, Some (Pooled k)) <$> slots) s = (Ok tt, s') ∧
        log s' = (log s ++ ((λ k, ClientClose (Pooled k)) <$> slots))%list ∧
        fs s' = fs s ∧ dirs s' = dirs s ∧ paths s' = paths s.
Proof.
  revert k s. induction slots as [|j slots IH]; intros k s; simpl.
  - eexists. split; [reflexivity|]. by rewrite app_nil_r.
  - unfold_run.
    edestruct (IH (S k)) as (s' & Hc & Hl & Hf & Hd & Hp).
    exists s'. split; [exact Hc|].
    rewrite Hl, Hf, Hd, Hp. simpl. by rewrite <-app_assoc.
Qed.

Lemma collect_Ok futures report s report' s' :
  collect futures report s = (Ok report', s') →
  s' = s ∧ ∃ stats, futures = Ok <$> stats ∧
                    file_stats report' = (file_stats report ++ stats)%list.
Proof.
  revert report. induction futures as [|[stat|e] futures IH]; intros report.
  - simpl. unfold_run. intros [= <- <-]. split; [done|].
    exists []. by rewrite app_nil_r.
  - simpl. intros H. apply IH in H as (-> & stats & -> & ->).
    split; [done|]. exists (stat :: stats). simpl. by rewrite <-app_assoc.
  - simpl. unfold_run. done.
Qed.

Lemma remove_paths_log ps s :
  ∃ s', remove_paths ps s = (Ok tt, s') ∧ log s' = log s ∧ dirs s' = dirs s.
Proof.
  revert s. induction ps as [|[p n] ps IH]; intros s; simpl.
  - by eexists.
  - unfold_run. edestruct IH as (s' & Hr & Hl & Hd).
    exists s'. split; [exact Hr|]. by rewrite Hl, Hd.
Qed.

Lemma finally_block_log d s r s' :
  finally_block d s = (r, s') → log s' = log s.
Proof.
  unfold finally_block. unfold_run.
  destruct (remove_paths_log (paths s) s) as (s1 & Hr & Hl & _).
  rewrite Hr, <-Hl.
  destruct (existsb _ _); [by intros [= <- <-]|].
  destruct (bool_decide _); by intros [= <- <-].
Qed.

(** ** Taking a completed run apart *)

Lemma bind_Ok {A B} (m : M A) (k : A → M B) s b s' :
  (m ≫= k) s = (Ok b, s') →
  ∃ a s1, m s = (Ok a, s1) ∧ k a s1 = (Ok b, s').
Proof.
  unfold mbind, M_bind, bind. destruct (m s) as [[a|e] s1]; [|done].
  intros H. by exists a, s1.
Qed.

Lemma get_max_workers_Ok config w s mw s' :
  get_max_workers config w s = (Ok mw, s') → s' = s ∧ (0 < mw)%nat.
Proof.
  unfold get_max_workers.
  destruct (0 <? sftp_threads config) eqn:Ht.
  - intros [= <- <-]. apply Z.ltb_lt in Ht. split; [done|lia].
  - destruct (cpu_count w); [|done]. intros [= <- <-]. split; [done|lia].
Qed.

Lemma run_future_ext config w s s' mw cs idx p :
  fs s' = fs s → dirs s' = dirs s → paths s' = paths s →
  run_future config w s' mw cs idx p = run_future config w s mw cs idx p.
Proof. unfold run_future. by intros -> -> ->. Qed.

Lemma try_block_Ok config w d s report s2 :
  try_block config w d s = (Ok report, s2) →
  ∃ mw sg,
    generate config w d (seq 0 (Z.to_nat (num_test_files config))) s
      = (Ok tt, sg) ∧
    get_max_workers config w sg = (Ok mw, sg) ∧
    as_completed (completion w)
      (fst <$> imap (run_future config w sg mw (pool config mw)) (paths sg))
      = Ok <$> file_stats report ∧
    log s2 = (log sg ++ warm_up_log config mw
      ++ interleave (schedule w)
           (snd <$> imap (run_future config w sg mw (pool config mw)) (paths sg))
      ++ pool_close_log config mw)%list.
Proof.
  unfold try_block. intros H.
  apply bind_Ok in H as ([] & sg & Hg & H).
  apply bind_Ok in H as (mw & s' & Hmw & H).
  destruct (get_max_workers_Ok _ _ _ _ _ Hmw) as [-> _].
  apply bind_Ok in H as (cs & sc & Hcs & H).
  apply bind_Ok in H as (fut & se & He & H).
  apply bind_Ok in H as (rep & s' & Hc & H).
  apply collect_Ok in Hc as (-> & stats & Hst & Hrep).
  apply bind_Ok in H as ([] & sz & Hz & H).
  injection H as <- <-.
  exists mw, sg. split; [done|]. split; [done|].
  unfold executor in He. injection He as <- <-.
  unfold pool, warm_up_log, pool_close_log.
  destruct (truthy (keep_alive_enabled config)).
  - apply create_clients_Ok in Hcs as (-> & Hl & Hf & Hd & Hp).
    rewrite Hp in *.
    rewrite (imap_ext _ (run_future config w sg mw
               ((λ k, Some (Pooled k)) <$> seq 0 mw))) in Hst, Hz
      by (intros; by apply run_future_ext).
    split; [by rewrite Hst, Hrep|].
    destruct (close_clients_pool w 0 (seq 0 mw)
      (mkMachine (now sc) (log sc ++ interleave (schedule w)
         (snd <$> imap (run_future config w sg mw
            ((λ k, Some (Pooled k)) <$> seq 0 mw)) (paths sg)))
         (fs sc) (dirs sc) (paths sg))) as (sz' & Hz' & Hlz & _).
    rewrite Hz' in Hz. injection Hz as <-.
    rewrite Hlz. cbn [log]. rewrite Hl. by rewrite <-!app_assoc.
  - injection Hcs as <- <-. injection Hz as <-.
    split; [by rewrite Hst, Hrep|]. cbn [log]. by rewrite app_nil_r.
Qed.

Lemma run_tests_Ok config w s0 report s1 :
  run_tests config w s0 = (Ok report, s1) →
  ∃ d mw sg,
    mkdtemp_answer w = Returns d ∧
    generate config w d (seq 0 (Z.to_nat (num_test_files config)))
      (entered d s0) = (Ok tt, sg) ∧
    get_max_workers config w sg = (Ok mw, sg) ∧
    as_completed (completion w)
      (fst <$> imap (run_future config w sg mw (pool config mw)) (paths sg))
      = Ok <$> file_stats report ∧
    log s1 = (log s0 ++ warm_up_log config mw
      ++ interleave (schedule w)
           (snd <$> imap (run_future config w sg mw (pool config mw)) (paths sg))
      ++ pool_close_log config mw)%list.
Proof.
  unfold run_tests. intros H.
  apply bind_Ok in H as (d & sd & Hd & H).
  apply bind_Ok in H as ([] & sp & Hp & H).
  unfold mkdtemp in Hd. destruct (mkdtemp_answer w) as [d'|] eqn:Hw; [|done].
  injection Hd as -> <-. injection Hp as <-.
  unfold try_finally in H.
  destruct (try_block _ _ _ _) as [r s2] eqn:Ht.
  destruct (finally_block _ _) as [[[]|e] s3] eqn:Hf; [|done].
  injection H as -> ->.
  apply finally_block_log in Hf.
  apply try_block_Ok in Ht as (mw & sg & Hg & Hmw & Hc & Hl).
  exists d, mw, sg. repeat (split; [done|]).
  rewrite Hf, Hl.
  by destruct (generate_Ok _ _ _ _ _ _ Hg) as (_ & -> & _).
Qed.

(** ** The futures of a completed run *)

Lemma all_returned {A} (futs : list (result A)) stats :
  Ok <$> stats ≡ₚ futs →
  futs = Ok <$> omap returned futs ∧ stats ≡ₚ omap returned futs.
Proof.
  intros HP. split.
  - assert (Forall (λ r, ∃ a, r = Ok a) futs) as Hall.
    { rewrite <-HP. apply Forall_fmap, Forall_true. intros a. by exists a. }
    clear HP. induction Hall as [|r futs [a ->] _ IH]; [done|].
    change (Ok a :: futs = Ok a :: (Ok <$> omap returned futs)).
    by f_equal.
  - rewrite <-HP. clear HP.
    induction stats as [|a stats IH]; [done|].
    change (a :: stats ≡ₚ a :: omap returned (Ok <$> stats)).
    by apply Permutation_skip.
Qed.

Lemma imap_artifacts {B} (h : nat → string * string → B) d n :
  imap h (artifact d <$> seq 0 n) = (λ i, h i (artifact d i)) <$> seq 0 n.
Proof.
  apply list_eq. intros i.
  rewrite list_lookup_imap, !list_lookup_fmap.
  destruct (seq 0 n !! i) as [j|] eqn:E; [|done].
  apply lookup_seq in E as [-> _]. done.
Qed.

Lemma fmap_by_index {A B} (g : A → B) (k : nat → B) (l : list A) n :
  length l = n →
  (∀ i a, l !! i = Some a → g a = k i) →
  g <$> l = k <$> seq 0 n.
Proof.
  intros Hn Hg. apply list_eq. intros i. rewrite !list_lookup_fmap.
  destruct (l !! i) as [a|] eqn:E.
  - rewrite lookup_seq_lt by (apply lookup_lt_Some in E; lia).
    simpl. f_equal. by apply Hg.
  - rewrite lookup_seq_ge; [done|]. apply lookup_ge_None in E. lia.
Qed.

Lemma run_future_Ok config w s mw cs idx p st :
  fst (run_future config w s mw cs idx p) = Ok st →
  ∃ f, fs s !! fst p = Some f ∧ name st = snd p ∧ size st = disk_bytes f.
Proof.
  unfold run_future.
  destruct (sftp_operation _ _ _ _ _ _ _) as [r s'] eqn:E. simpl.
  intros ->. by apply sftp_operation_stat in E.
Qed.

(** A run that completes: the scratch directory was made, every archive was
    generated, every future returned a [FileStat], the report holds these in
    the order of completion, and the network calls of the run are the
    warm-up of the pool, the interleaved calls of the futures and the
    closing of the pool. *)
Lemma run_tests_completed config w s0 report s1 :
  run_tests config w s0 = (Ok report, s1) →
  ∃ d mw sg stats,
    mkdtemp_answer w = Returns d ∧
    generate config w d (seq 0 (Z.to_nat (num_test_files config)))
      (entered d s0) = (Ok tt, sg) ∧
    (0 < mw)%nat ∧
    get_max_workers config w sg = (Ok mw, sg) ∧
    fst <$> futures_of config w d mw sg = Ok <$> stats ∧
    file_stats report ≡ₚ stats ∧
    log s1 = (log s0 ++ warm_up_log config mw
      ++ interleave (schedule w) (snd <$> futures_of config w d mw sg)
      ++ pool_close_log config mw)%list.
Proof.
  intros H. apply run_tests_Ok in H as (d & mw & sg & Hd & Hg & Hmw & Hc & Hl).
  destruct (generate_Ok _ _ _ _ _ _ Hg) as (Hp & _). cbn [entered paths] in Hp.
  rewrite app_nil_l in Hp. fold (artifact d) in Hp.
  rewrite Hp, imap_artifacts in Hc, Hl.
  fold (futures_of config w d mw sg) in Hc, Hl.
  pose proof (as_completed_Permutation (completion w)
                (fst <$> futures_of config w d mw sg)) as HP.
  rewrite Hc in HP. apply all_returned in HP as [Hf HP].
  eexists d, mw, sg, _. repeat (split; [done|]).
  split; [by eapply get_max_workers_Ok|]. by repeat (split; [done|]).
Qed.

Lemma futures_of_lookup config w d mw sg stats i st :
  fst <$> futures_of config w d mw sg = Ok <$> stats →
  stats !! i = Some st →
  (i < Z.to_nat (num_test_files config))%nat ∧
  fst (run_future config w sg mw (pool config mw) i (artifact d i)) = Ok st.
Proof.
  intros Hf Hi. apply (f_equal (.!! i)) in Hf.
  unfold futures_of in Hf. rewrite !list_lookup_fmap, Hi in Hf.
  destruct (seq 0 _ !! i) as [j|] eqn:E; [|done].
  apply lookup_seq in E as [-> ?]. simpl in Hf. split; [done|congruence].
Qed.

Lemma futures_of_length config w d mw sg stats :
  fst <$> futures_of config w d mw sg = Ok <$> stats →
  length stats = Z.to_nat (num_test_files config).
Proof.
  intros Hf. apply (f_equal length) in Hf.
  unfold futures_of in Hf. by rewrite !length_fmap, length_seq in Hf.
Qed.

(** ** Sessions of the futures *)

Lemma ephemeral_opened config net lp rn pos s stat s' :
  connect_outcome (conn net) = None →
  sftp_operation config net lp rn None pos s = (Ok stat, s') →
  count is_session_open (log s') = S (count is_session_open (log s)).
Proof.
  intros Hc. unfold_M. rewrite Hc.
  run_M; intros [= <- <-]; reduce_M; counting.
Qed.

Lemma pool_lookup_ephemeral config mw k :
  truthy (keep_alive_enabled config) = false →
  default None (pool config mw !! k) = None.
Proof.
  unfold pool. intros ->.
  destruct (replicate mw None !! k) as [c|] eqn:E; [|done].
  by apply lookup_replicate in E as [-> _].
Qed.

Lemma pool_lookup_pooled config mw idx :
  truthy (keep_alive_enabled config) = true → (0 < mw)%nat →
  default None (pool config mw !! (idx mod mw)%nat)
    = Some (Pooled (idx mod mw)).
Proof.
  unfold pool. intros -> Hmw.
  rewrite list_lookup_fmap, lookup_seq_lt; [done|].
  apply Nat.mod_upper_bound. lia.
Qed.

Lemma future_ephemeral config w s mw idx p st :
  truthy (keep_alive_enabled config) = false →
  fst (run_future config w s mw (pool config mw) idx p) = Ok st →
  count is_connect_attempt
    (snd (run_future config w s mw (pool config mw) idx p)) = 1%nat ∧
  count is_session_close
    (snd (run_future config w s mw (pool config mw) idx p))
  = count is_session_open
      (snd (run_future config w s mw (pool config mw) idx p)) ∧
  (connect_outcome (conn (network w idx)) = None →
   count is_session_open
     (snd (run_future config w s mw (pool config mw) idx p)) = 1%nat).
Proof.
  intros Hk. unfold run_future. rewrite pool_lookup_ephemeral by done.
  destruct (sftp_operation _ _ _ _ _ _ _) as [r s'] eqn:E. simpl.
  intros ->.
  destruct (ephemeral_sessions _ _ _ _ _ _ _ _ Hk E) as [Ha Hc].
  cbn [log count List.filter length] in Ha, Hc.
  repeat split; [done|lia|].
  intros Hn. by rewrite (ephemeral_opened _ _ _ _ _ _ _ _ Hn E).
Qed.

Lemma future_pooled config w s mw idx p :
  truthy (keep_alive_enabled config) = true → (0 < mw)%nat →
  count is_connect_attempt
    (snd (run_future config w s mw (pool config mw) idx p)) = 0%nat ∧
  count is_session_open
    (snd (run_future config w s mw (pool config mw) idx p)) = 0%nat ∧
  count is_session_close
    (snd (run_future config w s mw (pool config mw) idx p)) = 0%nat.
Proof.
  intros Hk Hmw. unfold run_future. rewrite pool_lookup_pooled by done.
  destruct (sftp_operation _ _ _ _ _ _ _) as [r s'] eqn:E. simpl.
  by apply (pooled_sessions _ _ _ _ _ _ _ _ _ Hk) in E.
Qed.

Lemma count_threads p n (ls : list (list event)) :
  Forall (λ l, count p l = n) ls → count p (concat ls) = (length ls * n)%nat.
Proof.
  induction 1 as [|l ls Hl _ IH]; [done|].
  simpl. rewrite count_app, IH, Hl. lia.
Qed.

Lemma count_threads_eq p q (ls : list (list event)) :
  Forall (λ l, count p l = count q l) ls →
  count p (concat ls) = count q (concat ls).
Proof.
  induction 1 as [|l ls Hl _ IH]; [done|].
  simpl. by rewrite !count_app, IH, Hl.
Qed.

Lemma futures_of_threads (P : list event → Prop) config w d mw sg stats :
  fst <$> futures_of config w d mw sg = Ok <$> stats →
  (∀ i st,
     fst (run_future config w sg mw (pool config mw) i (artifact d i)) = Ok st →
     P (snd (run_future config w sg mw (pool config mw) i (artifact d i)))) →
  Forall P (snd <$> futures_of config w d mw sg).
Proof.
  intros Hf HP. apply Forall_fmap, Forall_lookup. intros i x Hx.
  assert (∃ st, stats !! i = Some st) as [st Hst].
  { apply lookup_lt_is_Some. rewrite (futures_of_length _ _ _ _ _ _ Hf).
    apply lookup_lt_Some in Hx. unfold futures_of in Hx.
    by rewrite length_fmap, length_seq in Hx. }
  destruct (futures_of_lookup _ _ _ _ _ _ _ _ Hf Hst) as [Hi Hr].
  unfold futures_of in Hx. rewrite list_lookup_fmap, lookup_seq_lt in Hx by done.
  simpl in Hx. injection Hx as <-. by eapply HP.
Qed.

Lemma futures_of_threads_length config w d mw sg :
  length (snd <$> futures_of config w d mw sg)
  = Z.to_nat (num_test_files config).
Proof. unfold futures_of. by rewrite !length_fmap, length_seq. Qed.

Lemma count_fmap_const p (f : nat → event) (b : bool) l :
  (∀ k, p (f k) = b) →
  count p (f <$> l) = if b then length l else 0%nat.
Proof.
  intros Hf. unfold count. induction l as [|k l IH]; [by destruct b|].
  cbn [fmap list_fmap List.filter]. rewrite Hf.
  destruct b; cbn [length]; by rewrite IH.
Qed.

(** ** The settings a run reads *)

Lemma bind_ext {A B} (m1 m2 : M A) (k1 k2 : A → M B) s :
  m1 s = m2 s → (∀ a s', k1 a s' = k2 a s') →
  (m1 ≫= k1) s = (m2 ≫= k2) s.
Proof.
  unfold mbind, M_bind, bind. intros -> Hk.
  destruct (m2 s) as [[a|e] s']; [apply Hk|done].
Qed.

Lemma sftp_operation_ext c1 c2 net lp rn cl pos s :
  root_dir c1 = root_dir c2 →
  connect_timeout_seconds c1 = connect_timeout_seconds c2 →
  sftp_sleep_interval c1 = sftp_sleep_interval c2 →
  keep_alive_enabled c1 = keep_alive_enabled c2 →
  sftp_operation c1 net lp rn cl pos s = sftp_operation c2 net lp rn cl pos s.
Proof.
  unfold sftp_operation, transfer, _create_client, connect_timeout_arg.
  by intros -> -> -> ->.
Qed.

Lemma generate_ext c1 c2 w d idxs s :
  min_test_file_size_bytes c1 = min_test_file_size_bytes c2 →
  max_test_file_size_bytes c1 = max_test_file_size_bytes c2 →
  generate c1 w d idxs s = generate c2 w d idxs s.
Proof.
  intros Hmin Hmax. revert s.
  induction idxs as [|i idxs IH]; intros s; [done|].
  simpl. rewrite Hmin, Hmax.
  apply bind_ext; [done|]. intros size s1.
  apply bind_ext; [done|]. intros [] s2.
  apply bind_ext; [done|]. intros [] s3. apply IH.
Qed.

Lemma create_clients_ext c1 c2 w slots s :
  connect_timeout_seconds c1 = connect_timeout_seconds c2 →
  create_clients c1 w slots s = create_clients c2 w slots s.
Proof.
  intros Ht. revert s. induction slots as [|k slots IH]; intros s; [done|].
  simpl. apply bind_ext.
  - unfold _create_client, connect_timeout_arg. by rewrite Ht.
  - intros c s1. apply bind_ext; [apply IH|done].
Qed.

(** A run reads the root directory, the two size bounds, the number of
    files, the connect timeout, the number of threads, the sleep interval
    and the keep-alive switch of its configuration, and nothing else that
    this development observes. *)
Lemma run_tests_ext c1 c2 w s :
  root_dir c1 = root_dir c2 →
  min_test_file_size_bytes c1 = min_test_file_size_bytes c2 →
  max_test_file_size_bytes c1 = max_test_file_size_bytes c2 →
  num_test_files c1 = num_test_files c2 →
  connect_timeout_seconds c1 = connect_timeout_seconds c2 →
  sftp_threads c1 = sftp_threads c2 →
  sftp_sleep_interval c1 = sftp_sleep_interval c2 →
  keep_alive_enabled c1 = keep_alive_enabled c2 →
  run_tests c1 w s = run_tests c2 w s.
Proof.
  intros Hroot Hmin Hmax Hnum Hct Hth Hsl Hka.
  unfold run_tests.
  apply bind_ext; [done|]. intros d s1.
  apply bind_ext; [done|]. intros [] s2.
  unfold try_finally.
  assert (try_block c1 w d s2 = try_block c2 w d s2) as ->; [|done].
  unfold try_block. rewrite Hnum, Hka.
  apply bind_ext; [by apply generate_ext|]. intros [] sg.
  apply bind_ext; [unfold get_max_workers; by rewrite Hth|]. intros mw s3.
  apply bind_ext.
  { destruct (truthy _); [by apply create_clients_ext|done]. }
  intros cs sc. apply bind_ext; [|done].
  unfold executor.
  rewrite (imap_ext _ (run_future c2 w sc mw cs)); [done|].
  intros i p _. unfold run_future. by rewrite (sftp_operation_ext c1 c2).
Qed.

(** * The claims of the specification *)

(** ** C1: which errors leave a run *)

(** C1 (defect of the code).  The specification lets only a setup error
    leave [run_tests] and names two failures that must stay inside the
    outcome of their artifact.  Both leave the run: when the server accepts
    the connection and [client.open_sftp()] raises (line 115 is outside every
    [try]), the exception comes out of [future.result()] and out of
    [run_tests]; when keep-alive is on and a connect of the pool fails (line
    159), [run_tests] raises as well.  Neither exception is a setup error. *)
Theorem C1_subchannel_and_warm_up_failures_leave_the_run :
  (fst (run_tests empty_payloads (on_network no_subsystem) (boot ∅ ∅))
     = Raise (mkExn AtOpenSftp "Channel closed") ∧
   is_setup_error (mkExn AtOpenSftp "Channel closed") = false) ∧
  (fst (run_tests (keepAliveEnabled 1 empty_payloads) cold (boot ∅ ∅))
     = Raise (mkExn AtCreateClient "Connection refused") ∧
   is_setup_error (mkExn AtCreateClient "Connection refused") = false).
Proof. repeat split; vm_compute; reflexivity. Qed.

(** ** C2: one outcome per artifact *)

(** C2.  When a run completes, its report has exactly one [FileStat] for
    each of the [num_test_files] artifacts: as many entries as artifacts,
    whose names are the names [test_0.zip], [test_1.zip], ... of the
    artifacts, each once, in some order -- whatever the transfers did and
    however the workers were scheduled. *)
Theorem C2_one_outcome_per_artifact config w s0 report s1 :
  run_tests config w s0 = (Ok report, s1) →
  length (file_stats report) = Z.to_nat (num_test_files config) ∧
  name <$> file_stats report
    ≡ₚ test_name <$> seq 0 (Z.to_nat (num_test_files config)) ∧
  NoDup (name <$> file_stats report).
Proof.
  intros H.
  apply run_tests_completed in H
    as (d & mw & sg & stats & _ & _ & _ & _ & Hf & HP & _).
  assert (name <$> stats
          = test_name <$> seq 0 (Z.to_nat (num_test_files config))) as Hn.
  { apply fmap_by_index; [by eapply futures_of_length|].
    intros i st Hi.
    destruct (futures_of_lookup _ _ _ _ _ _ _ _ Hf Hi) as [_ Hr].
    by apply run_future_Ok in Hr as (f & _ & -> & _). }
  rewrite HP, Hn. repeat split; [|done|apply NoDup_test_names].
  rewrite <-(length_fmap name), Hn. by rewrite length_fmap, length_seq.
Qed.

Lemma C2_one_outcome_per_artifact_witness :
  let run := run_tests (numTestFiles 2 empty_payloads) calm (boot ∅ ∅) in
  length (file_stats (report_of run)) = 2%nat ∧
  name <$> file_stats (report_of run) ≡ₚ test_name <$> seq 0 2 ∧
  NoDup (name <$> file_stats (report_of run)).
Proof.
  intros run.
  apply (C2_one_outcome_per_artifact (numTestFiles 2 empty_payloads) calm
           (boot ∅ ∅) (report_of run) (snd run)).
  vm_compute. reflexivity.
Defined.

(** ** C3: the recorded size *)

(** C3, as stated, fails: with both bounds 0 the run records 116 bytes for
    its artifact, the size of the archive around an empty payload, which is
    above the configured maximum. *)
Lemma C3_recorded_size_above_the_maximum :
  fst (run_tests empty_payloads calm (boot ∅ ∅))
    = Ok (mkTestReport [mkFileStat "test_0.zip" 116 3 5 true None]) ∧
  ¬ (min_test_file_size_bytes empty_payloads ≤ 116
       ≤ max_test_file_size_bytes empty_payloads).
Proof.
  split; [vm_compute; reflexivity|].
  vm_compute. intros [_ H]. by apply H.
Qed.

(** C3, amended.  For every artifact of a completed run, the number of
    random bytes wrapped in its archive is the value that
    [random.randint(min, max)] returned for that artifact, from a draw of
    its own (the draw of no other artifact enters), and so lies within the
    configured bounds; [random.randint] favours no value of the range: it
    returns a value exactly for the draws of one residue class.  The size
    recorded in the [FileStat] is the size of the archive on scratch
    storage, that is the compressed data plus the 114 bytes of zip
    structure, which the bounds do not limit. *)
Theorem C3_payload_within_bounds_and_archive_size_recorded
    config w s0 report s1 stat :
  run_tests config w s0 = (Ok report, s1) →
  stat ∈ file_stats report →
  ∃ d sg i f,
    mkdtemp_answer w = Returns d ∧
    generate config w d (seq 0 (Z.to_nat (num_test_files config)))
      (entered d s0) = (Ok tt, sg) ∧
    (i < Z.to_nat (num_test_files config))%nat ∧
    name stat = test_name i ∧
    fs sg !! os_path_join d (test_name i) = Some f ∧
    (∀ t, randint (min_test_file_size_bytes config)
            (max_test_file_size_bytes config) (randint_raw w i) t
          = (Ok (payload_bytes f), t)) ∧
    (∀ raw v t,
       randint (min_test_file_size_bytes config)
         (max_test_file_size_bytes config) raw t = (Ok v, t) ↔
       min_test_file_size_bytes config ≤ v ≤ max_test_file_size_bytes config ∧
       (Z.of_nat raw - (v - min_test_file_size_bytes config))
         mod (max_test_file_size_bytes config
              - min_test_file_size_bytes config + 1) = 0) ∧
    min_test_file_size_bytes config ≤ payload_bytes f
      ≤ max_test_file_size_bytes config ∧
    size stat = disk_bytes f ∧
    disk_bytes f = zip_overhead + Z.of_nat (compressed_len (zip_behaviour w i)).
Proof.
  intros H Hin.
  apply run_tests_completed in H
    as (d & mw & sg & stats & Hd & Hg & _ & _ & Hf & HP & _).
  rewrite HP in Hin. apply list_elem_of_lookup in Hin as [i Hi].
  destruct (futures_of_lookup _ _ _ _ _ _ _ _ Hf Hi) as [Hlt Hr].
  apply run_future_Ok in Hr as (f & Hfs & Hn & Hsz). cbn [artifact fst snd] in *.
  destruct (generate_files _ _ _ _ _ _ (NoDup_seq 0 _) Hg i)
    as (f' & Hf' & Hdraw & Hb & Hdisk).
  { apply elem_of_seq. lia. }
  assert (f' = f) as -> by congruence.
  exists d, sg, i, f. repeat (split; [done|]).
  split; [|done]. intros raw v t. apply randint_unbiased. lia.
Qed.

Lemma C3_payload_within_bounds_and_archive_size_recorded_witness :
  let stat := mkFileStat "test_1.zip" 116 3 5 true None in
  ∃ d sg i f,
    mkdtemp_answer drawing = Returns d ∧
    generate two_small_payloads drawing d
      (seq 0 (Z.to_nat (num_test_files two_small_payloads)))
      (entered d (boot ∅ ∅)) = (Ok tt, sg) ∧
    (i < Z.to_nat (num_test_files two_small_payloads))%nat ∧
    name stat = test_name i ∧
    fs sg !! os_path_join d (test_name i) = Some f ∧
    (∀ t, randint (min_test_file_size_bytes two_small_payloads)
            (max_test_file_size_bytes two_small_payloads)
            (randint_raw drawing i) t
          = (Ok (payload_bytes f), t)) ∧
    (∀ raw v t,
       randint (min_test_file_size_bytes two_small_payloads)
         (max_test_file_size_bytes two_small_payloads) raw t = (Ok v, t) ↔
       min_test_file_size_bytes two_small_payloads ≤ v
         ≤ max_test_file_size_bytes two_small_payloads ∧
       (Z.of_nat raw - (v - min_test_file_size_bytes two_small_payloads))
         mod (max_test_file_size_bytes two_small_payloads
              - min_test_file_size_bytes two_small_payloads + 1) = 0) ∧
    min_test_file_size_bytes two_small_payloads ≤ payload_bytes f
      ≤ max_test_file_size_bytes two_small_payloads ∧
    size stat = disk_bytes f ∧
    disk_bytes f
      = zip_overhead + Z.of_nat (compressed_len (zip_behaviour drawing i)).
Proof.
  intros stat.
  apply (C3_payload_within_bounds_and_archive_size_recorded
           two_small_payloads drawing (boot ∅ ∅)
           (report_of (run_tests two_small_payloads drawing (boot ∅ ∅)))
           (snd (run_tests two_small_payloads drawing (boot ∅ ∅)))).
  - vm_compute. reflexivity.
  - vm_compute. right. left.
Defined.

(** ** C4: what the transfer time measures *)

(** C4, as stated, fails: on a network where the upload takes 2 ticks and
    the remote delete 3, and nothing else between the two clock readings
    takes time, the recorded transfer time is 5, not the 2 of the upload. *)
Lemma C4_transfer_time_includes_the_delete :
  fst (sftp_operation empty_payloads quiet "/tmp/tmpab12/test_0.zip"
         "test_0.zip" None 0
         (boot {["/tmp/tmpab12/test_0.zip" := small_zip]} ∅))
    = Ok (mkFileStat "test_0.zip" 116 3 5 true None) ∧
  put_dur quiet = 2%nat ∧ remove_dur quiet = 3%nat ∧
  tqdm_dur quiet = 0%nat ∧ pbar_close_dur quiet = 0%nat ∧
  transfer_time (mkFileStat "test_0.zip" 116 3 5 true None)
    ≠ Z.of_nat (put_dur quiet).
Proof. repeat split; vm_compute; (reflexivity || discriminate). Qed.

(** C4, amended.  The transfer time recorded by a call that had a client is
    the time between the reading of the clock after the channel was opened
    and the reading after the progress bar was closed: the set-up of the
    progress bar, the upload, the remote delete when the upload succeeded,
    and the closing of the progress bar.  When the call could not connect
    it records 0. *)
Theorem C4_transfer_time_covers_upload_and_delete
    config net lp rn cl pos s stat s' :
  sftp_operation config net lp rn cl pos s = (Ok stat, s') →
  transfer_time stat =
    match cl, connect_outcome (conn net) with
    | None, Some _ => 0
    | _, _ =>
        Z.of_nat (tqdm_dur net) + Z.of_nat (put_dur net)
        + match put_outcome net with
          | None => Z.of_nat (remove_dur net)
          | Some _ => 0
          end
        + Z.of_nat (pbar_close_dur net)
    end.
Proof.
  destruct cl; run_M; intros [= <- <-]; reduce_M; lia.
Qed.

Lemma C4_transfer_time_covers_upload_and_delete_witness :
  transfer_time (mkFileStat "test_0.zip" 116 3 5 true None) =
    match @None client, connect_outcome (conn quiet) with
    | None, Some _ => 0
    | _, _ =>
        Z.of_nat (tqdm_dur quiet) + Z.of_nat (put_dur quiet)
        + match put_outcome quiet with
          | None => Z.of_nat (remove_dur quiet)
          | Some _ => 0
          end
        + Z.of_nat (pbar_close_dur quiet)
    end.
Proof.
  apply (C4_transfer_time_covers_upload_and_delete empty_payloads quiet
           "/tmp/tmpab12/test_0.zip" "test_0.zip" None 0
           (boot {["/tmp/tmpab12/test_0.zip" := small_zip]} ∅) _
           (snd (sftp_operation empty_payloads quiet "/tmp/tmpab12/test_0.zip"
                   "test_0.zip" None 0
                   (boot {["/tmp/tmpab12/test_0.zip" := small_zip]} ∅)))).
  vm_compute. reflexivity.
Defined.

(** ** C5: sessions without keep-alive *)

(** C5, as stated, fails: with keep-alive off and one artifact, a server
    that refuses the connection makes the run complete with a failed
    outcome, and no session was opened and none closed. *)
Lemma C5_refused_connection_opens_and_closes_nothing :
  let run := run_tests empty_payloads (on_network refusing) (boot ∅ ∅) in
  truthy (keep_alive_enabled empty_payloads) = false ∧
  num_test_files empty_payloads = 1 ∧
  fst run = Ok (mkTestReport
                  [mkFileStat "test_0.zip" 116 3 0 false
                              (Some "Connection refused")]) ∧
  log (snd run) = [Connect (Ephemeral 0) (Some 20) false] ∧
  count is_session_open (log (snd run)) = 0%nat ∧
  count is_session_close (log (snd run)) = 0%nat.
Proof. repeat split; vm_compute; reflexivity. Qed.

(** C5, amended.  In a completed run with keep-alive off and N artifacts,
    exactly N connects are attempted, one for each artifact, and exactly as
    many sessions are closed as were opened: an artifact whose connect fails
    opens none and closes none.  When every connect succeeds this is N
    opens and N closes. *)
Theorem C5_one_connect_per_artifact_and_every_session_closed
    config w files directories report s1 :
  truthy (keep_alive_enabled config) = false →
  run_tests config w (boot files directories) = (Ok report, s1) →
  count is_connect_attempt (log s1) = Z.to_nat (num_test_files config) ∧
  count is_session_close (log s1) = count is_session_open (log s1) ∧
  ((∀ i, connect_outcome (conn (network w i)) = None) →
   count is_session_open (log s1) = Z.to_nat (num_test_files config)).
Proof.
  intros Hk H.
  apply run_tests_completed in H
    as (d & mw & sg & stats & _ & _ & _ & _ & Hf & _ & Hl).
  unfold warm_up_log, pool_close_log in Hl. rewrite Hk in Hl.
  cbn [boot log] in Hl. rewrite app_nil_l, app_nil_l, app_nil_r in Hl.
  rewrite Hl, !(count_Permutation _ _ _ (interleave_Permutation _ _)).
  split; [|split].
  - rewrite (count_threads _ 1), futures_of_threads_length; [lia|].
    apply (futures_of_threads _ _ _ _ _ _ _ Hf). intros i st Hr.
    by apply (future_ephemeral _ _ _ _ _ _ _ Hk) in Hr as (? & _).
  - apply count_threads_eq.
    apply (futures_of_threads _ _ _ _ _ _ _ Hf). intros i st Hr.
    by apply (future_ephemeral _ _ _ _ _ _ _ Hk) in Hr as (_ & ? & _).
  - intros Hall.
    rewrite (count_threads _ 1), futures_of_threads_length; [lia|].
    apply (futures_of_threads _ _ _ _ _ _ _ Hf). intros i st Hr.
    apply (future_ephemeral _ _ _ _ _ _ _ Hk) in Hr as (_ & _ & Ho).
    by apply Ho.
Qed.

Lemma C5_one_connect_per_artifact_and_every_session_closed_witness :
  let run := run_tests (numTestFiles 2 empty_payloads) calm (boot ∅ ∅) in
  count is_connect_attempt (log (snd run)) = 2%nat ∧
  count is_session_close (log (snd run))
    = count is_session_open (log (snd run)) ∧
  ((∀ i, connect_outcome (conn (network calm i)) = None) →
   count is_session_open (log (snd run)) = 2%nat).
Proof.
  intros run.
  apply (C5_one_connect_per_artifact_and_every_session_closed
           (numTestFiles 2 empty_payloads) calm ∅ ∅ (report_of run) (snd run)).
  - vm_compute. reflexivity.
  - vm_compute. reflexivity.
Defined.

(** ** C6: sessions with keep-alive *)

(** C6 (defect of the code).  With keep-alive on, one worker and one
    artifact, the session of the pool is opened before dispatch; when
    [client.open_sftp()] then raises in the worker, the exception leaves
    [run_tests] at [future.result()], the loop of lines 180-182 is not
    reached (it is in the body of the [try], not in its [finally]) and the
    session is never closed: one open, no close. *)
Theorem C6_pool_session_left_open_when_a_transfer_raises :
  let run := run_tests (keepAliveEnabled 1 empty_payloads)
               (on_network no_subsystem) (boot ∅ ∅) in
  truthy (keep_alive_enabled (keepAliveEnabled 1 empty_payloads)) = true ∧
  sftp_threads (keepAliveEnabled 1 empty_payloads) = 1 ∧
  num_test_files (keepAliveEnabled 1 empty_payloads) = 1 ∧
  fst run = Raise (mkExn AtOpenSftp "Channel closed") ∧
  log (snd run)
    = [Connect (Pooled 0) (Some 20) true; OpenSftp (Pooled 0) false] ∧
  count is_session_open (log (snd run)) = 1%nat ∧
  count is_session_close (log (snd run)) = 0%nat.
Proof. repeat split; vm_compute; reflexivity. Qed.

(** ** C7: the pause after an attempt *)

(** C7 (defect of the code).  With a sleep interval of 5 seconds, an
    attempt whose connect is refused returns its failed outcome from inside
    the [except] of line 110 and the worker does not pause: no [time.sleep]
    is called and the clock has only advanced by the 3 ticks of the connect.
    The attempt whose upload fails, on the same configuration, does pause. *)
Theorem C7_no_pause_after_a_refused_connection :
  let config := sftpSleepInterval 5 empty_payloads in
  let s := boot {["/tmp/tmpab12/test_0.zip" := small_zip]} ∅ in
  let refused := sftp_operation config refusing "/tmp/tmpab12/test_0.zip"
                   "test_0.zip" None 0 s in
  let upload_failed :=
    sftp_operation config
      (mkNetwork (mkConnect None 3) None 1 0 (Some "Failure") 2 None 3 0 1 1)
      "/tmp/tmpab12/test_0.zip" "test_0.zip" None 0 s in
  0 < sftp_sleep_interval config ∧
  fst refused = Ok (mkFileStat "test_0.zip" 116 3 0 false
                               (Some "Connection refused")) ∧
  log (snd refused) = [Connect (Ephemeral 0) (Some 20) false] ∧
  count is_sleep (log (snd refused)) = 0%nat ∧
  now (snd refused) = 3 ∧
  fst upload_failed = Ok (mkFileStat "test_0.zip" 116 3 2 false
                                     (Some "Failure")) ∧
  count is_sleep (log (snd upload_failed)) = 1%nat.
Proof. repeat split; vm_compute; reflexivity. Qed.

(** ** C8: cleanup of the scratch storage *)

(** C8 (defect of the code).  When the scratch storage runs full while the
    archive of the first artifact is written, [zipfile.ZipFile] has already
    created [test_0.zip]; [create_random_zip] raises before line 156 has
    recorded the path, so the [finally] does not remove the file, [os.rmdir]
    refuses the directory that still holds it, and the run ends with the
    file and the directory left on scratch storage. *)
Theorem C8_partial_archive_left_behind :
  let run := run_tests empty_payloads disk_full (boot ∅ ∅) in
  zip_behaviour disk_full 0
    = mkZip None None (Some "No space left on device") 2 ∧
  fst run = Raise (mkExn AtRmdir "Directory not empty") ∧
  map_to_list (fs (snd run)) = [("/tmp/tmpab12/test_0.zip", mkFile 0 2)] ∧
  elements (dirs (snd run)) = ["/tmp/tmpab12"].
Proof. repeat split; vm_compute; reflexivity. Qed.

(** ** C9: the connect timeout *)

(** C9, as stated, fails: with a connect timeout of -2 the connect is made
    with a timeout of -2 seconds, not without a timeout. *)
Lemma C9_negative_timeout_is_passed_on :
  log (snd (_create_client (ConnectTimeoutSeconds (-2) empty_payloads)
              (Ephemeral 0) (mkConnect None 3) (boot ∅ ∅)))
    = [Connect (Ephemeral 0) (Some (-2)) true] ∧
  connect_timeout_seconds (ConnectTimeoutSeconds (-2) empty_payloads) < 0.
Proof. split; vm_compute; reflexivity. Qed.

(** C9, amended.  [_create_client] makes exactly one connect; it is made
    without a timeout exactly when the configured value is -1, and with the
    configured value as its timeout for every other value, negative ones
    included. *)
Theorem C9_no_timeout_exactly_for_minus_one config who b s r s' :
  _create_client config who b s = (r, s') →
  ∃ timeout ok,
    log s' = (log s ++ [Connect who timeout ok])%list ∧
    (timeout = None ↔ connect_timeout_seconds config = -1) ∧
    (connect_timeout_seconds config ≠ -1 →
     timeout = Some (connect_timeout_seconds config)).
Proof.
  unfold _create_client, call, tick, emit, raise, mbind, M_bind, bind, mret,
    M_ret, ret, connect_timeout_arg.
  destruct (connect_timeout_seconds config =? -1) eqn:Ht;
    [apply Z.eqb_eq in Ht|apply Z.eqb_neq in Ht];
    destruct (connect_outcome b); intros [= <- <-]; cbn [log];
    eexists _, _; (split; [reflexivity|]); split; by (split || intros).
Qed.

Lemma C9_no_timeout_exactly_for_minus_one_witness :
  ∃ timeout ok,
    log (snd (_create_client (ConnectTimeoutSeconds (-1) empty_payloads)
                (Ephemeral 0) (mkConnect None 3) (boot ∅ ∅)))
      = (log (boot ∅ ∅) ++ [Connect (Ephemeral 0) timeout ok])%list ∧
    (timeout = None ↔
     connect_timeout_seconds (ConnectTimeoutSeconds (-1) empty_payloads) = -1) ∧
    (connect_timeout_seconds (ConnectTimeoutSeconds (-1) empty_payloads) ≠ -1 →
     timeout
     = Some (connect_timeout_seconds
               (ConnectTimeoutSeconds (-1) empty_payloads))).
Proof.
  apply (C9_no_timeout_exactly_for_minus_one
           (ConnectTimeoutSeconds (-1) empty_payloads) (Ephemeral 0)
           (mkConnect None 3) (boot ∅ ∅)
           (fst (_create_client (ConnectTimeoutSeconds (-1) empty_payloads)
                   (Ephemeral 0) (mkConnect None 3) (boot ∅ ∅)))).
  vm_compute. reflexivity.
Defined.

(** ** C10: the retry setting *)

(** C10.  Two configurations that differ only in [retry_attempts] behave
    alike: a run and a single call give the same result and leave the same
    machine, clock, calls made and scratch storage included, whatever the
    environment answers.  And no call retries: it connects at most once and
    uploads at most once. *)
Theorem C10_retry_attempts_has_no_effect config attempts w s :
  run_tests (retryAttempts attempts config) w s = run_tests config w s ∧
  (∀ net lp rn cl pos,
     sftp_operation (retryAttempts attempts config) net lp rn cl pos s
     = sftp_operation config net lp rn cl pos s) ∧
  (∀ net lp rn cl pos,
     (count is_connect_attempt
        (log (snd (sftp_operation config net lp rn cl pos s)))
      ≤ S (count is_connect_attempt (log s)))%nat ∧
     (count is_put (log (snd (sftp_operation config net lp rn cl pos s)))
      ≤ S (count is_put (log s)))%nat).
Proof.
  split; [|split].
  - by apply run_tests_ext.
  - intros. by apply sftp_operation_ext.
  - intros. eapply at_most_once. apply surjective_pairing.
Qed.

(** * Further properties of the code *)

(** ** One call of sftp_operation *)



(** X2.  A call of [sftp_operation] raises in two cases only: the local
    file is missing, and then nothing at all has happened (no network call,
    no tick of the clock); or [client.open_sftp()] raised, with that very
    message. *)
Theorem X2_call_raises_only_without_file_or_channel
    config net lp rn cl pos s e s' :
  sftp_operation config net lp rn cl pos s = (Raise e, s') →
  (raised_at e = AtGetsize ∧ fs s !! lp = None ∧ s' = s) ∨
  (raised_at e = AtOpenSftp ∧ open_sftp_outcome net = Some (message e) ∧
   is_Some (fs s !! lp)).
Proof.
  destruct cl; run_M; intros [= <- <-]; reduce_M;
    (by left) || (right; by eauto).
Qed.

Lemma X2_call_raises_only_without_file_or_channel_witness :
  (raised_at (mkExn AtGetsize "No such file or directory") = AtGetsize ∧
   fs (boot ∅ ∅) !! "/tmp/tmpab12/test_0.zip" = None ∧
   boot ∅ ∅ = boot ∅ ∅) ∨
  (raised_at (mkExn AtGetsize "No such file or directory") = AtOpenSftp ∧
   open_sftp_outcome quiet
     = Some (message (mkExn AtGetsize "No such file or directory")) ∧
   is_Some (fs (boot ∅ ∅) !! "/tmp/tmpab12/test_0.zip")).
Proof.
  apply (X2_call_raises_only_without_file_or_channel empty_payloads quiet
           "/tmp/tmpab12/test_0.zip" "test_0.zip" None 0 (boot ∅ ∅)).
  vm_compute. reflexivity.
Defined.

(** X3.  In every outcome that [sftp_operation] returns, [success] holds
    exactly when no error message is recorded, and exactly when the call
    had a client and both the upload and the remote delete went through: an
    upload whose remote delete fails is reported as a failed transfer. *)
Theorem X3_success_means_upload_and_delete
    config net lp rn cl pos s stat s' :
  sftp_operation config net lp rn cl pos s = (Ok stat, s') →
  (success stat = true ↔ error stat = None) ∧
  (success stat = true ↔
   has_client net cl = true ∧ put_outcome net = None ∧
   remove_outcome net = None).
Proof.
  unfold has_client.
  destruct cl; run_M; intros [= <- <-]; reduce_M; intuition congruence.
Qed.

Lemma X3_success_means_upload_and_delete_witness :
  let stat := mkFileStat "test_0.zip" 116 3 5 true None in
  (success stat = true ↔ error stat = None) ∧
  (success stat = true ↔
   has_client quiet None = true ∧ put_outcome quiet = None ∧
   remove_outcome quiet = None).
Proof.
  intros stat.
  apply (X3_success_means_upload_and_delete empty_payloads quiet
           "/tmp/tmpab12/test_0.zip" "test_0.zip" None 0
           (boot {["/tmp/tmpab12/test_0.zip" := small_zip]} ∅) stat
           (snd (sftp_operation empty_payloads quiet "/tmp/tmpab12/test_0.zip"
                   "test_0.zip" None 0
                   (boot {["/tmp/tmpab12/test_0.zip" := small_zip]} ∅)))).
  vm_compute. reflexivity.
Defined.

(** X4.  A call attempts the remote delete exactly when its upload went
    through, and a successful transfer uploaded to
    [os.path.join(root_dir, remote_name)] and then deleted that same remote
    path. *)
Theorem X4_delete_attempted_exactly_after_an_upload
    config net lp rn cl pos s r s' :
  sftp_operation config net lp rn cl pos s = (r, s') →
  (count is_remove (log s') + count is_uploaded (log s)
   = count is_remove (log s) + count is_uploaded (log s'))%nat ∧
  (∀ stat, r = Ok stat → success stat = true →
     ∃ before after,
       log s' = (log s ++ before
                 ++ [Put lp (os_path_join (root_dir config) rn) true;
                     Remove (os_path_join (root_dir config) rn) true]
                 ++ after)%list).
Proof.
  destruct cl; run_M; intros [= <- <-]; reduce_M;
    (split; [counting|]);
    intros stat [= <-]; reduce_M; try done; intros _;
    rewrite <-!app_assoc;
    ((eexists [_], _; reflexivity) || (eexists [_; _], _; reflexivity)).
Qed.

Lemma X4_delete_attempted_exactly_after_an_upload_witness :
  let s := boot {["/tmp/tmpab12/test_0.zip" := small_zip]} ∅ in
  let run := sftp_operation empty_payloads quiet "/tmp/tmpab12/test_0.zip"
               "test_0.zip" None 0 s in
  (count is_remove (log (snd run)) + count is_uploaded (log s)
   = count is_remove (log s) + count is_uploaded (log (snd run)))%nat ∧
  (∀ stat, fst run = Ok stat → success stat = true →
     ∃ before after,
       log (snd run)
       = (log s ++ before
          ++ [Put "/tmp/tmpab12/test_0.zip"
                  (os_path_join (root_dir empty_payloads) "test_0.zip") true;
              Remove (os_path_join (root_dir empty_payloads) "test_0.zip")
                     true]
          ++ after)%list).
Proof.
  intros s run.
  apply (X4_delete_attempted_exactly_after_an_upload empty_payloads quiet
           "/tmp/tmpab12/test_0.zip" "test_0.zip" None 0 s).
  apply surjective_pairing.
Defined.

(** X5.  The connect time of an outcome is 0 when the call was given a
    client of the pool (the connects of the pool are not attributed to any
    artifact), and the duration of the connect call when the call connected
    itself, whether that connect succeeded or failed. *)
Theorem X5_connect_time_is_the_duration_of_the_own_connect
    config net lp rn cl pos s stat s' :
  sftp_operation config net lp rn cl pos s = (Ok stat, s') →
  connect_time stat
  = match cl with
    | Some _ => 0
    | None => Z.of_nat (connect_dur (conn net))
    end.
Proof.
  destruct cl; run_M; intros [= <- <-]; reduce_M; lia.
Qed.

Lemma X5_connect_time_is_the_duration_of_the_own_connect_witness :
  connect_time (mkFileStat "test_0.zip" 116 3 0 false
                           (Some "Connection refused"))
  = match @None client with
    | Some _ => 0
    | None => Z.of_nat (connect_dur (conn refusing))
    end.
Proof.
  apply (X5_connect_time_is_the_duration_of_the_own_connect empty_payloads
           refusing "/tmp/tmpab12/test_0.zip" "test_0.zip" None 0
           (boot {["/tmp/tmpab12/test_0.zip" := small_zip]} ∅) _
           (snd (sftp_operation empty_payloads refusing
                   "/tmp/tmpab12/test_0.zip" "test_0.zip" None 0
                   (boot {["/tmp/tmpab12/test_0.zip" := small_zip]} ∅)))).
  vm_compute. reflexivity.
Defined.

(** X6.  With a sleep interval of 0 or less a call never sleeps, whatever
    its result.  With a positive interval, a call that had a client and
    returns ends with exactly one [time.sleep] of the configured number of
    seconds, after the channel (and the client, without keep-alive) was
    closed. *)
Theorem X6_sleep_only_for_a_positive_interval
    config net lp rn cl pos s r s' :
  sftp_operation config net lp rn cl pos s = (r, s') →
  (sftp_sleep_interval config ≤ 0 →
   count is_sleep (log s') = count is_sleep (log s)) ∧
  (0 < sftp_sleep_interval config → has_client net cl = true →
   ∀ stat, r = Ok stat →
     ∃ tr, log s' = (tr ++ [Sleep (sftp_sleep_interval config)])%list ∧
           count is_sleep tr = count is_sleep (log s)).
Proof.
  intros H. split.
  - intros Hle. apply Z.ltb_ge in Hle. revert H. unfold_M. rewrite Hle.
    destruct cl; run_M; intros [= <- <-]; reduce_M; counting.
  - intros Hlt Hc stat ->. apply Z.ltb_lt in Hlt. revert H Hc.
    unfold has_client. unfold_M. rewrite Hlt.
    destruct cl; run_M; intros [= <- <-]; reduce_M; intros Hc; try done;
      (eexists; split; [reflexivity|counting]).
Qed.

Lemma X6_sleep_only_for_a_positive_interval_witness :
  let config := sftpSleepInterval 5 empty_payloads in
  let s := boot {["/tmp/tmpab12/test_0.zip" := small_zip]} ∅ in
  let run := sftp_operation config quiet "/tmp/tmpab12/test_0.zip"
               "test_0.zip" None 0 s in
  (sftp_sleep_interval config ≤ 0 →
   count is_sleep (log (snd run)) = count is_sleep (log s)) ∧
  (0 < sftp_sleep_interval config → has_client quiet None = true →
   ∀ stat, fst run = Ok stat →
     ∃ tr, log (snd run) = (tr ++ [Sleep (sftp_sleep_interval config)])%list ∧
           count is_sleep tr = count is_sleep (log s)).
Proof.
  intros config s run.
  apply (X6_sleep_only_for_a_positive_interval config quiet
           "/tmp/tmpab12/test_0.zip" "test_0.zip" None 0 s).
  apply surjective_pairing.
Defined.

(** ** Scratch storage during a run *)

Lemma create_clients_storage config w slots s r s' :
  create_clients config w slots s = (r, s') →
  fs s' = fs s ∧ dirs s' = dirs s ∧ paths s' = paths s.
Proof.
  revert s r. induction slots as [|k slots IH]; intros s r; simpl.
  - unfold_run. by intros [= <- <-].
  - unfold_run. destruct (connect_outcome _); [by intros [= <- <-]|].
    destruct (create_clients _ _ _ _) as [[cs|e] s1] eqn:H;
      intros [= <- <-]; by apply IH in H.
Qed.

Lemma close_clients_storage w k cs s r s' :
  close_clients w k cs s = (r, s') →
  r = Ok tt ∧ fs s' = fs s ∧ dirs s' = dirs s ∧ paths s' = paths s.
Proof.
  revert k s. induction cs as [|[c|] cs IH]; intros k s; simpl.
  - unfold_run. by intros [= <- <-].
  - unfold_run. intros H. by apply IH in H.
  - apply IH.
Qed.

Lemma collect_state futures report s r s' :
  collect futures report s = (r, s') → s' = s.
Proof.
  revert report. induction futures as [|[stat|e] futures IH]; intros report;
    simpl; [by intros [= _ <-]|apply IH|by intros [= _ <-]].
Qed.

Lemma bind_inv {A B} (m : M A) (k : A → M B) s r s' :
  (m ≫= k) s = (r, s') →
  (∃ e, m s = (Raise e, s') ∧ r = Raise e) ∨
  (∃ a s1, m s = (Ok a, s1) ∧ k a s1 = (r, s')).
Proof.
  unfold mbind, M_bind, bind. destruct (m s) as [[a|e] s1].
  - intros H. right. by exists a, s1.
  - intros [= <- <-]. left. by exists e.
Qed.

Lemma get_max_workers_state config w s r s' :
  get_max_workers config w s = (r, s') → s' = s.
Proof.
  unfold get_max_workers. destruct (_ <? _); [by intros [= _ <-]|].
  destruct (cpu_count w); by intros [= _ <-].
Qed.

Lemma pool_step_storage config w mw s r s' :
  (if truthy (keep_alive_enabled config)
   then create_clients config w (seq 0 mw)
   else ret (replicate mw None)) s = (r, s') →
  fs s' = fs s ∧ dirs s' = dirs s ∧ paths s' = paths s.
Proof.
  destruct (truthy _); [apply create_clients_storage|by intros [= _ <-]].
Qed.

Lemma pool_close_step_storage config w cs s r s' :
  (if truthy (keep_alive_enabled config)
   then close_clients w 0 cs
   else ret tt) s = (r, s') →
  r = Ok tt ∧ fs s' = fs s ∧ dirs s' = dirs s ∧ paths s' = paths s.
Proof.
  destruct (truthy _); [apply close_clients_storage|by intros [= <- <-]].
Qed.

(** Whatever the body of the [try] does after the generation loop, it
    leaves the scratch storage and [paths] as the loop left them. *)
Lemma try_block_storage config w d s r s2 :
  try_block config w d s = (r, s2) →
  ∃ rg sg,
    generate config w d (seq 0 (Z.to_nat (num_test_files config))) s
      = (rg, sg) ∧
    (∀ e, rg = Raise e → r = Raise e) ∧
    fs s2 = fs sg ∧ dirs s2 = dirs sg ∧ paths s2 = paths sg.
Proof.
  unfold try_block. intros H.
  apply bind_inv in H as [(e & Hg & ->)|([] & sg & Hg & H)].
  { exists (Raise e), s2. split; [done|]. split; [by intros ? [= <-]|done]. }
  exists (Ok tt), sg. split; [done|]. split; [done|].
  apply bind_inv in H as [(e & Hmw & ->)|(mw & s' & Hmw & H)].
  { by apply get_max_workers_state in Hmw as ->. }
  apply get_max_workers_state in Hmw as ->.
  apply bind_inv in H as [(e & Hcs & ->)|(cs & sc & Hcs & H)].
  { by apply pool_step_storage in Hcs. }
  apply pool_step_storage in Hcs as (Hf & Hd & Hp).
  apply bind_inv in H as [(e & He & ->)|(futs & se & He & H)]; [done|].
  unfold executor in He. injection He as <- <-.
  apply bind_inv in H as [(e & Hc & ->)|(rep & s' & Hc & H)].
  { by apply collect_state in Hc as ->. }
  apply collect_state in Hc as ->.
  apply bind_inv in H as [(e & Hz & ->)|([] & sz & Hz & H)].
  { by apply pool_close_step_storage in Hz as (? & _). }
  apply pool_close_step_storage in Hz as (_ & Hf' & Hd' & Hp').
  injection H as <- <-. cbn [fs dirs paths] in *. by rewrite Hf', Hd', Hp'.
Qed.

Lemma remove_paths_spec ps s :
  ∃ s', remove_paths ps s = (Ok tt, s') ∧
        log s' = log s ∧ dirs s' = dirs s ∧ paths s' = paths s ∧
        now s' = now s ∧
        (∀ p, p ∈ fst <$> ps → fs s' !! p = None) ∧
        (∀ p, p ∉ fst <$> ps → fs s' !! p = fs s !! p).
Proof.
  revert s. induction ps as [|[q n] ps IH]; intros s; simpl.
  - exists s. repeat split; try done. intros p Hp. by apply elem_of_nil in Hp.
  - unfold_run.
    edestruct IH as (s' & Hr & Hl & Hd & Hp & Hn & Hin & Hout).
    exists s'. split; [exact Hr|]. rewrite Hl, Hd, Hp, Hn.
    repeat split; try done.
    + intros p Hq. destruct (decide (p ∈ fst <$> ps)) as [?|Hnin];
        [by apply Hin|].
      rewrite Hout by done. cbn [fs].
      apply elem_of_cons in Hq as [->|?]; [|done]. apply lookup_delete_eq.
    + intros p Hq. apply not_elem_of_cons in Hq as [Hne Hq].
      rewrite Hout by done. cbn [fs]. by apply lookup_delete_ne.
Qed.

Lemma rmdir_Ok d s s' :
  rmdir d s = (Ok tt, s') →
  (∀ p, in_dir d p = true → fs s !! p = None) ∧
  fs s' = fs s ∧ dirs s' = dirs s ∖ {[d]} ∧ log s' = log s.
Proof.
  unfold rmdir. destruct (existsb _ _) eqn:He; [done|].
  destruct (bool_decide _); [|done]. intros [= <-]. split; [|done].
  intros p Hp. destruct (fs s !! p) as [f|] eqn:Hf; [|done].
  assert (existsb (in_dir d) (fst <$> map_to_list (fs s)) = true) as Ht;
    [|congruence].
  apply existsb_exists. exists p. split; [|done].
  apply list_elem_of_In, list_elem_of_fmap. exists (p, f).
  split; [done|]. by apply elem_of_map_to_list.
Qed.

Lemma rmdir_empty d s :
  (∀ p, in_dir d p = true → fs s !! p = None) → d ∈ dirs s →
  rmdir d s
  = (Ok tt, mkMachine (now s) (log s) (fs s) (dirs s ∖ {[d]}) (paths s)).
Proof.
  intros Hempty Hd. unfold rmdir.
  destruct (existsb _ _) eqn:He.
  - apply existsb_exists in He as (p & Hin & Hp).
    apply list_elem_of_In, list_elem_of_fmap in Hin as ([q f] & -> & Hin).
    apply elem_of_map_to_list in Hin. simpl in Hp.
    by rewrite (Hempty _ Hp) in Hin.
  - by rewrite bool_decide_eq_true_2.
Qed.

Lemma difference_union_singleton (d : string) (X : gset string) :
  ({[d]} ∪ X) ∖ {[d]} = X ∖ {[d]}.
Proof.
  apply set_eq. intros x.
  rewrite !elem_of_difference, elem_of_union, elem_of_singleton. tauto.
Qed.

Lemma elem_of_union_singleton (d : string) (X : gset string) : d ∈ {[d]} ∪ X.
Proof. apply elem_of_union. left. by apply elem_of_singleton. Qed.

Lemma run_tests_inv config w s0 r s1 :
  run_tests config w s0 = (r, s1) →
  (∃ msg, mkdtemp_answer w = Fails msg ∧
          r = Raise (mkExn AtMkdtemp msg) ∧ s1 = s0) ∨
  (∃ d rb s2 rf,
     mkdtemp_answer w = Returns d ∧
     try_block config w d (entered d s0) = (rb, s2) ∧
     finally_block d s2 = (rf, s1) ∧
     r = match rf with Ok _ => rb | Raise e => Raise e end).
Proof.
  unfold run_tests, mkdtemp, set_paths, try_finally.
  unfold mbind, M_bind, bind, raise.
  destruct (mkdtemp_answer w) as [d|msg].
  - fold (entered d s0).
    destruct (try_block _ _ _ _) as [rb s2] eqn:Hb.
    destruct (finally_block _ _) as [rf s3] eqn:Hf.
    intros H. right. exists d, rb, s2, rf. repeat split; try done.
    + destruct rf; by injection H as <- <-.
    + destruct rf; by injection H as <- <-.
  - intros [= <- <-]. left. by exists msg.
Qed.

Lemma finally_block_spec d s :
  ∃ s3, finally_block d s = rmdir d s3 ∧
        log s3 = log s ∧ dirs s3 = dirs s ∧
        (∀ p, p ∈ fst <$> paths s → fs s3 !! p = None) ∧
        (∀ p, p ∉ fst <$> paths s → fs s3 !! p = fs s !! p).
Proof.
  destruct (remove_paths_spec (paths s) s)
    as (s3 & Hr & Hl & Hd & _ & _ & Hin & Hout).
  exists s3. split; [|done].
  unfold finally_block, get_paths, mbind, M_bind, bind. by rewrite Hr.
Qed.

Lemma artifact_paths d n p :
  p ∈ fst <$> (artifact d <$> seq 0 n) ↔
  ∃ i, (i < n)%nat ∧ p = os_path_join d (test_name i).
Proof.
  rewrite <-list_fmap_compose, list_elem_of_fmap. split.
  - intros (i & -> & Hi). apply elem_of_seq in Hi. exists i. split; [lia|done].
  - intros (i & Hi & ->). exists i. split; [done|]. apply elem_of_seq. lia.
Qed.

(** ** Cleanup *)

(** X7.  A run that returns its report has cleaned up: the scratch
    directory made by [tempfile.mkdtemp] is gone, nothing is left below it,
    none of the generated archives is left, and every other local file is
    as it was before the run. *)
Theorem X7_completed_run_leaves_no_scratch_files config w s0 report s1 :
  run_tests config w s0 = (Ok report, s1) →
  ∃ d,
    mkdtemp_answer w = Returns d ∧
    dirs s1 = dirs s0 ∖ {[d]} ∧
    (∀ p, in_dir d p = true → fs s1 !! p = None) ∧
    (∀ i, (i < Z.to_nat (num_test_files config))%nat →
          fs s1 !! os_path_join d (test_name i) = None) ∧
    (∀ p, (∀ i, (i < Z.to_nat (num_test_files config))%nat →
                p ≠ os_path_join d (test_name i)) →
          fs s1 !! p = fs s0 !! p).
Proof.
  intros H. apply run_tests_inv in H as [(msg & _ & ? & _)|H]; [done|].
  destruct H as (d & rb & s2 & rf & Hd & Hb & Hf & Hr).
  destruct rf as [[]|e]; [subst rb|done].
  apply try_block_storage in Hb as (rg & sg & Hg & Hrg & Hfs & Hds & Hps).
  destruct rg as [[]|e]; [|by specialize (Hrg e eq_refl)].
  destruct (generate_Ok _ _ _ _ _ _ Hg) as (Hp & _ & Hdg & _).
  cbn [entered paths dirs] in Hp, Hdg. rewrite app_nil_l in Hp.
  fold (artifact d) in Hp.
  destruct (finally_block_spec d s2) as (s3 & Hfin & _ & Hd3 & Hin & Hout).
  rewrite Hfin in Hf. apply rmdir_Ok in Hf as (Hempty & Hf1 & Hd1 & _).
  rewrite Hps, Hp in Hin, Hout.
  exists d. split; [done|]. split; [|split; [|split]].
  - rewrite Hd1, Hd3, Hds, Hdg. apply difference_union_singleton.
  - intros p Hp'. rewrite Hf1. by apply Hempty.
  - intros i Hi. rewrite Hf1. apply Hin, artifact_paths. by exists i.
  - intros p Hne. rewrite Hf1, Hout, Hfs.
    + rewrite (generate_other_files _ _ _ _ _ _ _ p Hg); [done|].
      intros i Hi. apply Hne. apply elem_of_seq in Hi. lia.
    + intros (i & Hi & ->)%artifact_paths. by eapply Hne.
Qed.

Lemma X7_completed_run_leaves_no_scratch_files_witness :
  let s0 := boot {["/home/u/notes.txt" := small_zip]} {["/home/u"]} in
  let config := numTestFiles 2 empty_payloads in
  let run := run_tests config calm s0 in
  ∃ d,
    mkdtemp_answer calm = Returns d ∧
    dirs (snd run) = dirs s0 ∖ {[d]} ∧
    (∀ p, in_dir d p = true → fs (snd run) !! p = None) ∧
    (∀ i, (i < Z.to_nat (num_test_files config))%nat →
          fs (snd run) !! os_path_join d (test_name i) = None) ∧
    (∀ p, (∀ i, (i < Z.to_nat (num_test_files config))%nat →
                p ≠ os_path_join d (test_name i)) →
          fs (snd run) !! p = fs s0 !! p).
Proof.
  intros s0 config run.
  apply (X7_completed_run_leaves_no_scratch_files config calm s0
           (report_of run)).
  vm_compute. reflexivity.
Defined.

(** X8.  Once the generation loop has written every archive, the cleanup
    removes them all whatever happens afterwards (a worker may raise, a
    connect of the pool may fail): when the scratch directory was fresh,
    after the run no archive is left, the directory is gone, and the run
    ends the way the body of its [try] ended. *)
Theorem X8_cleanup_after_a_completed_generation config w s0 d sg :
  mkdtemp_answer w = Returns d →
  (∀ p, in_dir d p = true → fs s0 !! p = None) →
  generate config w d (seq 0 (Z.to_nat (num_test_files config)))
    (entered d s0) = (Ok tt, sg) →
  fst (run_tests config w s0) = fst (try_block config w d (entered d s0)) ∧
  dirs (snd (run_tests config w s0)) = dirs s0 ∖ {[d]} ∧
  (∀ i, (i < Z.to_nat (num_test_files config))%nat →
        fs (snd (run_tests config w s0)) !! os_path_join d (test_name i)
        = None) ∧
  (∀ p, in_dir d p = true → fs (snd (run_tests config w s0)) !! p = None).
Proof.
  intros Hd Hfresh Hg.
  destruct (run_tests config w s0) as [r s1] eqn:H.
  apply run_tests_inv in H as [(msg & ? & _)|H]; [congruence|].
  destruct H as (d' & rb & s2 & rf & Hd' & Hb & Hf & Hr).
  assert (d' = d) as -> by congruence.
  destruct (try_block_storage _ _ _ _ _ _ Hb)
    as (rg & sg' & Hg' & _ & Hfs & Hds & Hps).
  assert (sg' = sg) as -> by congruence.
  destruct (generate_Ok _ _ _ _ _ _ Hg) as (Hp & _ & Hdg & _).
  cbn [entered paths dirs] in Hp, Hdg. rewrite app_nil_l in Hp.
  fold (artifact d) in Hp.
  destruct (finally_block_spec d s2) as (s3 & Hfin & _ & Hd3 & Hin & Hout).
  rewrite Hps, Hp in Hin, Hout.
  assert (∀ p, in_dir d p = true → fs s3 !! p = None) as Hempty.
  { intros p Hp'.
    destruct (decide (p ∈ fst <$> (artifact d <$>
                seq 0 (Z.to_nat (num_test_files config))))) as [?|Hn];
      [by apply Hin|].
    rewrite Hout, Hfs by done.
    rewrite (generate_other_files _ _ _ _ _ _ _ p Hg); [by apply Hfresh|].
    intros i Hi ->. apply Hn, artifact_paths. exists i. split; [|done].
    apply elem_of_seq in Hi. lia. }
  rewrite Hfin, rmdir_empty in Hf; [|done|].
  2:{ rewrite Hd3, Hds, Hdg. apply elem_of_union_singleton. }
  injection Hf as <- <-. subst r. cbn [fst snd fs dirs].
  rewrite Hb. repeat split; try done.
  - rewrite Hd3, Hds, Hdg. apply difference_union_singleton.
  - intros i Hi. apply Hin, artifact_paths. by exists i.
Qed.

Lemma X8_cleanup_after_a_completed_generation_witness :
  let w := on_network no_subsystem in
  let run := run_tests empty_payloads w (boot ∅ ∅) in
  fst run
    = fst (try_block empty_payloads w "/tmp/tmpab12"
             (entered "/tmp/tmpab12" (boot ∅ ∅))) ∧
  dirs (snd run) = dirs (boot ∅ ∅) ∖ {["/tmp/tmpab12"]} ∧
  (∀ i, (i < Z.to_nat (num_test_files empty_payloads))%nat →
        fs (snd run) !! os_path_join "/tmp/tmpab12" (test_name i) = None) ∧
  (∀ p, in_dir "/tmp/tmpab12" p = true → fs (snd run) !! p = None).
Proof.
  intros w run.
  apply (X8_cleanup_after_a_completed_generation empty_payloads w (boot ∅ ∅)
           "/tmp/tmpab12"
           (snd (generate empty_payloads w "/tmp/tmpab12"
                   (seq 0 (Z.to_nat (num_test_files empty_payloads)))
                   (entered "/tmp/tmpab12" (boot ∅ ∅))))).
  - reflexivity.
  - intros p _. reflexivity.
  - vm_compute. reflexivity.
Defined.

(** ** The pool of a run with keep-alive *)

Lemma get_max_workers_any config w s mw s' t :
  get_max_workers config w s = (Ok mw, s') →
  get_max_workers config w t = (Ok mw, t).
Proof.
  unfold get_max_workers. destruct (_ <? _); [by intros [= <- _]|].
  destruct (cpu_count w); [|done]. by intros [= <- _].
Qed.

Lemma futures_of_pooled config w d mw sg :
  truthy (keep_alive_enabled config) = true → (0 < mw)%nat →
  Forall (λ l, count is_connect_attempt l = 0%nat ∧
               count is_session_open l = 0%nat ∧
               count is_session_close l = 0%nat)
         (snd <$> futures_of config w d mw sg).
Proof.
  intros Hk Hmw. unfold futures_of. rewrite <-list_fmap_compose.
  apply Forall_fmap, Forall_true. intros i.
  by apply future_pooled.
Qed.

(** X9.  A run with keep-alive that returns its report has connected the
    sessions of the pool first, one for each worker (the configured number
    of threads, or the number of processors when that is 0 or less), and
    closed each of them last; in between no worker connects or closes a
    session, however many artifacts there are and whatever their uploads
    did. *)
Theorem X9_pool_connected_first_and_closed_last
    config w files directories report s1 :
  truthy (keep_alive_enabled config) = true →
  run_tests config w (boot files directories) = (Ok report, s1) →
  ∃ mw middle,
    get_max_workers config w (boot files directories)
      = (Ok mw, boot files directories) ∧
    log s1 = (((λ k, Connect (Pooled k) (connect_timeout_arg config) true)
                 <$> seq 0 mw)
              ++ middle
              ++ ((λ k, ClientClose (Pooled k)) <$> seq 0 mw))%list ∧
    count is_connect_attempt middle = 0%nat ∧
    count is_session_close middle = 0%nat ∧
    count is_session_open (log s1) = mw ∧
    count is_session_close (log s1) = mw.
Proof.
  intros Hk H.
  apply run_tests_completed in H
    as (d & mw & sg & stats & _ & _ & Hpos & Hmw & _ & _ & Hl).
  unfold warm_up_log, pool_close_log in Hl. rewrite Hk in Hl.
  cbn [boot log] in Hl. rewrite app_nil_l in Hl.
  pose proof (futures_of_pooled config w d mw sg Hk Hpos) as Hall.
  assert (count is_connect_attempt
            (interleave (schedule w) (snd <$> futures_of config w d mw sg))
          = 0%nat) as Ha.
  { rewrite (count_Permutation _ _ _ (interleave_Permutation _ _)).
    rewrite (count_threads _ 0); [lia|].
    eapply Forall_impl; [exact Hall|]. by intros l (? & _). }
  assert (count is_session_open
            (interleave (schedule w) (snd <$> futures_of config w d mw sg))
          = 0%nat) as Ho.
  { rewrite (count_Permutation _ _ _ (interleave_Permutation _ _)).
    rewrite (count_threads _ 0); [lia|].
    eapply Forall_impl; [exact Hall|]. by intros l (_ & ? & _). }
  assert (count is_session_close
            (interleave (schedule w) (snd <$> futures_of config w d mw sg))
          = 0%nat) as Hc.
  { rewrite (count_Permutation _ _ _ (interleave_Permutation _ _)).
    rewrite (count_threads _ 0); [lia|].
    eapply Forall_impl; [exact Hall|]. by intros l (_ & _ & ?). }
  exists mw, (interleave (schedule w) (snd <$> futures_of config w d mw sg)).
  split; [by eapply get_max_workers_any|]. split; [done|].
  split; [done|]. split; [done|].
  rewrite Hl, !count_app, Ho, Hc.
  rewrite (count_fmap_const is_session_open
             (λ k, Connect (Pooled k) (connect_timeout_arg config) true) true),
    (count_fmap_const is_session_open (λ k, ClientClose (Pooled k)) false),
    (count_fmap_const is_session_close
       (λ k, Connect (Pooled k) (connect_timeout_arg config) true) false),
    (count_fmap_const is_session_close (λ k, ClientClose (Pooled k)) true)
    by done.
  rewrite length_seq. lia.
Qed.

Lemma X9_pool_connected_first_and_closed_last_witness :
  let config := numTestFiles 3 (sftpThreads 2
                  (keepAliveEnabled 1 empty_payloads)) in
  let run := run_tests config calm (boot ∅ ∅) in
  ∃ mw middle,
    get_max_workers config calm (boot ∅ ∅) = (Ok mw, boot ∅ ∅) ∧
    log (snd run)
    = (((λ k, Connect (Pooled k) (connect_timeout_arg config) true)
          <$> seq 0 mw)
       ++ middle
       ++ ((λ k, ClientClose (Pooled k)) <$> seq 0 mw))%list ∧
    count is_connect_attempt middle = 0%nat ∧
    count is_session_close middle = 0%nat ∧
    count is_session_open (log (snd run)) = mw ∧
    count is_session_close (log (snd run)) = mw.
Proof.
  intros config run.
  apply (X9_pool_connected_first_and_closed_last config calm ∅ ∅
           (report_of run)).
  - vm_compute. reflexivity.
  - vm_compute. reflexivity.
Defined.

(** ** Edge cases of the configuration *)

Lemma bind_Ok_eq {A B} (m : M A) (k : A → M B) s a s1 :
  m s = (Ok a, s1) → (m ≫= k) s = k a s1.
Proof. unfold mbind, M_bind, bind. by intros ->. Qed.

Lemma bind_Raise_eq {A B} (m : M A) (k : A → M B) s e s1 :
  m s = (Raise e, s1) → (m ≫= k) s = (Raise e, s1).
Proof. unfold mbind, M_bind, bind. by intros ->. Qed.

Lemma run_tests_from_try_block config w d s0 rb s2 :
  mkdtemp_answer w = Returns d →
  try_block config w d (entered d s0) = (rb, s2) →
  run_tests config w s0
  = match finally_block d s2 with
    | (Ok _, s3) => (rb, s3)
    | (Raise e, s3) => (Raise e, s3)
    end.
Proof.
  intros Hd Hb. unfold run_tests, mkdtemp, set_paths, try_finally.
  rewrite Hd. unfold mbind, M_bind, bind.
  change (try_block config w d _)
    with (try_block config w d (entered d s0)).
  by rewrite Hb.
Qed.

Lemma finally_block_fresh d s :
  paths s = [] → d ∈ dirs s →
  (∀ p, in_dir d p = true → fs s !! p = None) →
  finally_block d s
  = (Ok tt, mkMachine (now s) (log s) (fs s) (dirs s ∖ {[d]}) []).
Proof.
  intros Hp Hd Hfresh. unfold finally_block, get_paths.
  unfold mbind, M_bind, bind. rewrite Hp. cbn [remove_paths].
  unfold mret, M_ret, ret. rewrite rmdir_empty by done. by rewrite Hp.
Qed.

(** X10.  When the configured minimum size is above the maximum and at
    least one file is asked for, the run raises the [ValueError] of
    [random.randint] before anything is written or sent; the scratch
    directory it had made is removed again and the local files are left as
    they were. *)
Theorem X10_empty_size_range_raises_and_cleans_up config w s0 d :
  mkdtemp_answer w = Returns d →
  (∀ p, in_dir d p = true → fs s0 !! p = None) →
  max_test_file_size_bytes config < min_test_file_size_bytes config →
  0 < num_test_files config →
  fst (run_tests config w s0)
    = Raise (mkExn AtRandint "empty range for randrange()") ∧
  log (snd (run_tests config w s0)) = log s0 ∧
  fs (snd (run_tests config w s0)) = fs s0 ∧
  dirs (snd (run_tests config w s0)) = dirs s0 ∖ {[d]}.
Proof.
  intros Hd Hfresh Hlt Hn.
  assert (try_block config w d (entered d s0)
          = (Raise (mkExn AtRandint "empty range for randrange()"),
             entered d s0)) as Hb.
  { unfold try_block. apply bind_Raise_eq.
    destruct (Z.to_nat (num_test_files config)) as [|n] eqn:E; [lia|].
    cbn [seq generate]. apply bind_Raise_eq. unfold randint.
    destruct (_ <=? _) eqn:Hle; [apply Z.leb_le in Hle; lia|done]. }
  rewrite (run_tests_from_try_block _ _ _ _ _ _ Hd Hb).
  rewrite finally_block_fresh;
    [|done|apply elem_of_union_singleton|exact Hfresh].
  cbn [fst snd log fs dirs entered]. repeat split.
  apply difference_union_singleton.
Qed.

Lemma X10_empty_size_range_raises_and_cleans_up_witness :
  let config := minTestFileSizeBytes 10 (maxTestFileSizeBytes 5
                  SFTPConfig_init) in
  let run := run_tests config calm (boot ∅ ∅) in
  fst run = Raise (mkExn AtRandint "empty range for randrange()") ∧
  log (snd run) = log (boot ∅ ∅) ∧
  fs (snd run) = fs (boot ∅ ∅) ∧
  dirs (snd run) = dirs (boot ∅ ∅) ∖ {["/tmp/tmpab12"]}.
Proof.
  intros config run.
  apply (X10_empty_size_range_raises_and_cleans_up config calm (boot ∅ ∅)
           "/tmp/tmpab12").
  - reflexivity.
  - intros p _. reflexivity.
  - reflexivity.
  - reflexivity.
Defined.

Lemma interleave_nil sched : interleave sched [] = [].
Proof. induction sched as [|k sched IH]; [done|]. simpl. exact IH. Qed.

Lemma as_completed_nil {A} picks : as_completed picks (@nil A) = [].
Proof. by destruct picks. Qed.

Lemma create_clients_connected config w slots s :
  (∀ k, k ∈ slots → connect_outcome (warm_up w k) = None) →
  ∃ s', create_clients config w slots s
          = (Ok ((λ k, Some (Pooled k)) <$> slots), s') ∧
        log s' = (log s ++ ((λ k, Connect (Pooled k)
                               (connect_timeout_arg config) true) <$> slots))%list ∧
        fs s' = fs s ∧ dirs s' = dirs s ∧ paths s' = paths s.
Proof.
  revert s. induction slots as [|k slots IH]; intros s Hall.
  - exists s. simpl. by rewrite app_nil_r.
  - simpl. unfold_run. rewrite (Hall k) by left.
    edestruct IH as (s' & Hc & Hl & Hf & Hd & Hp).
    { intros j Hj. apply Hall. by right. }
    rewrite Hc. exists s'. split; [done|].
    rewrite Hl, Hf, Hd, Hp. simpl. by rewrite <-app_assoc.
Qed.

(** X11.  With no file to send ([num_test_files] 0 or less) a run returns
    an empty report and transfers nothing; with keep-alive it still
    connects a session for every worker, and closes them again, although
    it has nothing to send over them. *)
Theorem X11_run_without_files config w s0 d mw :
  num_test_files config ≤ 0 →
  mkdtemp_answer w = Returns d →
  (∀ p, in_dir d p = true → fs s0 !! p = None) →
  get_max_workers config w s0 = (Ok mw, s0) →
  (truthy (keep_alive_enabled config) = true →
   ∀ k, (k < mw)%nat → connect_outcome (warm_up w k) = None) →
  fst (run_tests config w s0) = Ok (mkTestReport []) ∧
  log (snd (run_tests config w s0))
    = (log s0 ++ warm_up_log config mw ++ pool_close_log config mw)%list ∧
  fs (snd (run_tests config w s0)) = fs s0.
Proof.
  intros Hn Hd Hfresh Hmw Hconn.
  assert (∃ s2, try_block config w d (entered d s0) = (Ok (mkTestReport []), s2)
                ∧ log s2 = (log s0 ++ warm_up_log config mw
                            ++ pool_close_log config mw)%list
                ∧ fs s2 = fs s0 ∧ dirs s2 = {[d]} ∪ dirs s0 ∧ paths s2 = [])
    as (s2 & Hb & Hl & Hf & Hds & Hp).
  { unfold try_block. replace (Z.to_nat (num_test_files config)) with 0%nat
      by lia.
    cbn [seq generate]. erewrite bind_Ok_eq by reflexivity.
    erewrite bind_Ok_eq by (eapply get_max_workers_any; exact Hmw).
    unfold warm_up_log, pool_close_log.
    destruct (truthy (keep_alive_enabled config)) eqn:Hk.
    - destruct (create_clients_connected config w (seq 0 mw) (entered d s0))
        as (sc & Hc & Hlc & Hfc & Hdc & Hpc).
      { intros k Hk'. apply Hconn; [done|]. apply elem_of_seq in Hk'. lia. }
      erewrite bind_Ok_eq by exact Hc.
      unfold executor. erewrite bind_Ok_eq by reflexivity.
      rewrite Hpc. cbn [entered paths imap fmap list_fmap].
      rewrite interleave_nil, as_completed_nil. cbn [collect].
      erewrite bind_Ok_eq by reflexivity. cbv beta iota.
      match goal with
      | |- context [(close_clients w 0 _ ≫= _) ?s] =>
          destruct (close_clients_pool w 0 (seq 0 mw) s)
            as (sz & Hz & Hlz & Hfz & Hdz & Hpz)
      end.
      erewrite bind_Ok_eq by exact Hz.
      exists sz. split; [done|]. rewrite Hlz, Hfz, Hdz, Hpz.
      cbn [log fs dirs paths]. rewrite Hlc, Hfc, Hdc, app_nil_r.
      cbn [entered log fs dirs]. by rewrite <-app_assoc.
    - erewrite bind_Ok_eq by reflexivity.
      unfold executor. erewrite bind_Ok_eq by reflexivity.
      cbn [entered paths imap fmap list_fmap].
      rewrite interleave_nil, as_completed_nil. cbn [collect].
      erewrite bind_Ok_eq by reflexivity.
      erewrite bind_Ok_eq by reflexivity.
      eexists. split; [reflexivity|]. cbn [log fs dirs paths].
      by rewrite !app_nil_r. }
  rewrite (run_tests_from_try_block _ _ _ _ _ _ Hd Hb).
  rewrite finally_block_fresh.
  - cbn [fst snd log fs]. by rewrite Hl, Hf.
  - done.
  - rewrite Hds. apply elem_of_union_singleton.
  - intros p Hp'. rewrite Hf. by apply Hfresh.
Qed.

Lemma X11_run_without_files_witness :
  let config := numTestFiles 0 (sftpThreads 2
                  (keepAliveEnabled 1 empty_payloads)) in
  let run := run_tests config calm (boot ∅ ∅) in
  fst run = Ok (mkTestReport []) ∧
  log (snd run)
    = (log (boot ∅ ∅) ++ warm_up_log config 2 ++ pool_close_log config 2)%list ∧
  fs (snd run) = fs (boot ∅ ∅).
Proof.
  intros config run.
  apply (X11_run_without_files config calm (boot ∅ ∅) "/tmp/tmpab12" 2).
  - vm_compute. discriminate.
  - reflexivity.
  - intros p _. reflexivity.
  - reflexivity.
  - intros _ k _. reflexivity.
Defined.

(** X12.  The transfer timeout of the configuration is stored and never
    applied: two configurations that differ only in
    [transfer_timeout_seconds] give the same run and the same call of
    [sftp_operation], whatever the environment answers.  No upload or
    remote delete is given a time limit. *)
Theorem X12_transfer_timeout_is_never_applied config timeout w s :
  run_tests (TransferTimeoutSeconds timeout config) w s = run_tests config w s ∧
  (∀ net lp rn cl pos,
     sftp_operation (TransferTimeoutSeconds timeout config) net lp rn cl pos s
     = sftp_operation config net lp rn cl pos s).
Proof.
  split.
  - by apply run_tests_ext.
  - intros. by apply sftp_operation_ext.
Qed.

(** ** Which errors leave a run *)

Lemma sftp_operation_Raise config net lp rn cl pos s e s' :
  sftp_operation config net lp rn cl pos s = (Raise e, s') →
  (raised_at e = AtGetsize ∧ fs s !! lp = None) ∨ raised_at e = AtOpenSftp.
Proof.
  destruct cl; run_M; intros [= <- <-]; reduce_M; (by left) || by right.
Qed.

Lemma generate_Raise config w d idxs s e s' :
  generate config w d idxs s = (Raise e, s') →
  raised_at e = AtRandint ∨ raised_at e = AtCreateRandomZip.
Proof.
  revert s. induction idxs as [|i idxs IH]; intros s; simpl; [done|].
  unfold_run.
  destruct (_ <=? _); [|intros [= <- _]; by left].
  destruct (_ <? 0); [intros [= <- _]; by right|].
  destruct (data_write_failure _); [intros [= <- _]; by right|].
  destruct (zip_open_failure _); [intros [= <- _]; by right|].
  destruct (zip_write_failure _); [intros [= <- _]; by right|].
  apply IH.
Qed.

Lemma create_clients_Raise config w slots s e s' :
  create_clients config w slots s = (Raise e, s') →
  raised_at e = AtCreateClient.
Proof.
  revert s s'. induction slots as [|k slots IH]; intros s s'; simpl; [done|].
  unfold_run. destruct (connect_outcome _); [by intros [= <- _]|].
  destruct (create_clients _ _ _ _) as [[cs|e'] s1] eqn:H; [done|].
  intros [= <- _]. by eapply IH.
Qed.

Lemma collect_Raise futures report s e s' :
  collect futures report s = (Raise e, s') → Raise e ∈ futures.
Proof.
  revert report. induction futures as [|[stat|e'] futures IH]; intros report;
    simpl; [done| |].
  - intros H. right. by eapply IH.
  - intros [= <- _]. left.
Qed.

Lemma finally_block_Raise d s e s' :
  finally_block d s = (Raise e, s') → raised_at e = AtRmdir.
Proof.
  destruct (finally_block_spec d s) as (s3 & -> & _). unfold rmdir.
  destruct (existsb _ _); [by intros [= <- _]|].
  destruct (bool_decide _); [done|by intros [= <- _]].
Qed.

Lemma get_max_workers_Raise config w s e s' :
  get_max_workers config w s = (Raise e, s') → raised_at e = AtCpuCount.
Proof.
  unfold get_max_workers. destruct (_ <? _); [done|].
  destruct (cpu_count w); [done|]. by intros [= <- _].
Qed.

Lemma try_block_Raise config w d s0 e s2 :
  try_block config w d (entered d s0) = (Raise e, s2) →
  raised_at e = AtRandint ∨ raised_at e = AtCreateRandomZip ∨
  raised_at e = AtCpuCount ∨
  (raised_at e = AtCreateClient ∧ truthy (keep_alive_enabled config) = true) ∨
  raised_at e = AtOpenSftp.
Proof.
  unfold try_block. intros H.
  apply bind_inv in H as [(e' & Hg & [= <-])|([] & sg & Hg & H)].
  { apply generate_Raise in Hg as [?|?]; auto 10. }
  apply bind_inv in H as [(e' & Hmw & [= <-])|(mw & s' & Hmw & H)].
  { apply get_max_workers_Raise in Hmw. auto 10. }
  apply get_max_workers_state in Hmw as ->.
  apply bind_inv in H as [(e' & Hcs & [= <-])|(cs & sc & Hcs & H)].
  { destruct (truthy _); [|done]. apply create_clients_Raise in Hcs. auto 10. }
  apply pool_step_storage in Hcs as (Hf & _ & Hp).
  apply bind_inv in H as [(e' & He & _)|(futs & se & He & H)]; [done|].
  unfold executor in He. injection He as <- <-.
  apply bind_inv in H as [(e' & Hc & [= <-])|(rep & s' & Hc & H)].
  2:{ apply bind_inv in H as [(e' & Hz & _)|([] & sz & Hz & H)]; [|done].
      by apply pool_close_step_storage in Hz as (? & _). }
  apply collect_Raise in Hc.
  rewrite as_completed_Permutation in Hc.
  apply list_elem_of_fmap in Hc as ([r l] & Hr & Hin). simpl in Hr. subst r.
  apply list_elem_of_lookup in Hin as [i Hi].
  rewrite list_lookup_imap in Hi.
  destruct (paths sc !! i) as [p|] eqn:Hpi; [|done].
  simpl in Hi. injection Hi as Hi. unfold run_future in Hi.
  destruct (sftp_operation _ _ _ _ _ _ _) as [r s'] eqn:Hop.
  injection Hi as -> _.
  apply sftp_operation_Raise in Hop as [[_ Hnone]|?]; [|auto 10].
  exfalso. cbn [fs] in Hnone. rewrite Hf in Hnone.
  destruct (generate_Ok _ _ _ _ _ _ Hg) as (Hps & _).
  cbn [entered paths] in Hps. rewrite app_nil_l in Hps.
  rewrite Hp, Hps, list_lookup_fmap in Hpi.
  destruct (seq 0 _ !! i) as [j|] eqn:Hj; [|done].
  apply lookup_seq in Hj as [-> Hlt]. simpl in Hpi. injection Hpi as <-.
  destruct (generate_files _ _ _ _ _ _ (NoDup_seq 0 _) Hg i)
    as (f & Hsome & _).
  { apply elem_of_seq. lia. }
  simpl in Hnone. congruence.
Qed.

(** X13.  An error of an upload or of a remote delete never leaves a run,
    and neither does a missing local archive: the futures always find the
    archives that the run generated.  A connect error leaves a run only
    from the pool of a run with keep-alive. *)
Theorem X13_upload_and_delete_errors_never_leave_a_run config w s0 e s1 :
  run_tests config w s0 = (Raise e, s1) →
  raised_at e ≠ AtPut ∧ raised_at e ≠ AtRemove ∧ raised_at e ≠ AtGetsize ∧
  (raised_at e = AtCreateClient → truthy (keep_alive_enabled config) = true).
Proof.
  intros H. apply run_tests_inv in H as [(msg & _ & [= ->] & _)|H];
    [by repeat split|].
  destruct H as (d & rb & s2 & rf & _ & Hb & Hf & Hr).
  destruct rf as [[]|e'].
  - subst rb. apply try_block_Raise in Hb
      as [Ho|[Ho|[Ho|[[Ho Hk]|Ho]]]]; rewrite Ho; by repeat split.
  - injection Hr as ->. apply finally_block_Raise in Hf.
    rewrite Hf. by repeat split.
Qed.

Lemma X13_upload_and_delete_errors_never_leave_a_run_witness :
  let e := mkExn AtCreateClient "Connection refused" in
  raised_at e ≠ AtPut ∧ raised_at e ≠ AtRemove ∧ raised_at e ≠ AtGetsize ∧
  (raised_at e = AtCreateClient →
   truthy (keep_alive_enabled (keepAliveEnabled 1 empty_payloads)) = true).
Proof.
  intros e.
  apply (X13_upload_and_delete_errors_never_leave_a_run
           (keepAliveEnabled 1 empty_payloads) cold (boot ∅ ∅) e
           (snd (run_tests (keepAliveEnabled 1 empty_payloads) cold
                   (boot ∅ ∅)))).
  vm_compute. reflexivity.
Defined.

(** ** Uploads of a run *)

Lemma sftp_operation_uploads config net lp rn cl pos s r s' :
  sftp_operation config net lp rn cl pos s = (r, s') →
  (count is_remove (log s') + count is_uploaded (log s)
   = count is_remove (log s) + count is_uploaded (log s'))%nat ∧
  (∀ stat, r = Ok stat →
     count is_removed (log s')
     = (count is_removed (log s) + if success stat then 1 else 0)%nat).
Proof.
  destruct cl; run_M; intros [= <- <-]; reduce_M;
    (split; [counting|]); intros stat [= <-]; reduce_M; counting.
Qed.

Lemma filter_length_Permutation {A} (f : A → bool) (l1 l2 : list A) :
  l1 ≡ₚ l2 → length (List.filter f l1) = length (List.filter f l2).
Proof.
  induction 1 as [|x l l' _ IH|x y l|l l' l'' _ IH1 _ IH2];
    simpl; [done| |by destruct (f x), (f y)|congruence].
  destruct (f x); simpl; by rewrite IH.
Qed.

Lemma count_threads_le p n (ls : list (list event)) :
  Forall (λ l, (count p l ≤ n)%nat) ls →
  (count p (concat ls) ≤ length ls * n)%nat.
Proof.
  induction 1 as [|l ls Hl _ IH]; [done|].
  simpl. rewrite count_app. lia.
Qed.

Lemma count_successes p (futs : list (result FileStat * list event)) stats :
  fst <$> futs = Ok <$> stats →
  Forall (λ rf, ∀ st, fst rf = Ok st →
                count p (snd rf) = if success st then 1%nat else 0%nat) futs →
  count p (concat (snd <$> futs)) = length (List.filter success stats).
Proof.
  intros Hf Hall. revert stats Hf.
  induction Hall as [|[r l] futs Hrl _ IH]; intros [|st stats] Hf;
    try done.
  injection Hf as -> Hf. cbn [fmap list_fmap concat snd].
  pose proof (Hrl st eq_refl) as Hc. cbn [snd] in Hc.
  rewrite count_app, (IH _ Hf), Hc. cbn [List.filter].
  by destruct (success st).
Qed.

Lemma futures_of_Forall (P : result FileStat * list event → Prop)
    config w d mw sg :
  (∀ i, P (run_future config w sg mw (pool config mw) i (artifact d i))) →
  Forall P (futures_of config w d mw sg).
Proof.
  intros HP. unfold futures_of. by apply Forall_fmap, Forall_true.
Qed.

Lemma run_future_uploads config w s mw cs idx p :
  (count is_put (snd (run_future config w s mw cs idx p)) ≤ 1)%nat ∧
  count is_remove (snd (run_future config w s mw cs idx p))
  = count is_uploaded (snd (run_future config w s mw cs idx p)) ∧
  (∀ st, fst (run_future config w s mw cs idx p) = Ok st →
     count is_removed (snd (run_future config w s mw cs idx p))
     = if success st then 1%nat else 0%nat).
Proof.
  unfold run_future.
  destruct (sftp_operation _ _ _ _ _ _ _) as [r s'] eqn:E. cbn [fst snd].
  destruct (at_most_once _ _ _ _ _ _ _ _ _ E) as [_ Hput].
  destruct (sftp_operation_uploads _ _ _ _ _ _ _ _ _ E) as [Hrm Hok].
  cbn [log count List.filter length] in Hput, Hrm, Hok.
  repeat split; [done|lia|]. intros st ->. by rewrite (Hok st eq_refl).
Qed.

(** X14.  In a run that returns its report no artifact is uploaded twice:
    at most one upload is attempted for each artifact.  A remote delete is
    attempted for each upload that went through and for nothing else, and
    the number of successful outcomes of the report is the number of
    remote deletes that went through. *)
Theorem X14_uploads_deletes_and_successes
    config w files directories report s1 :
  run_tests config w (boot files directories) = (Ok report, s1) →
  (count is_put (log s1) ≤ Z.to_nat (num_test_files config))%nat ∧
  count is_remove (log s1) = count is_uploaded (log s1) ∧
  successes report = count is_removed (log s1).
Proof.
  intros H.
  apply run_tests_completed in H
    as (d & mw & sg & stats & _ & _ & _ & _ & Hf & HP & Hl).
  assert (∀ p, (∀ c t ok, p (Connect c t ok) = false) →
               (∀ c, p (ClientClose c) = false) →
               count p (log s1)
               = count p (concat (snd <$> futures_of config w d mw sg)))
    as Hcount.
  { intros p Hc Hcl. rewrite Hl. cbn [boot log]. rewrite app_nil_l.
    rewrite !count_app,
      (count_Permutation _ _ _ (interleave_Permutation _ _)).
    unfold warm_up_log, pool_close_log.
    destruct (truthy _); [|cbn; lia].
    rewrite (count_fmap_const p
               (λ k, Connect (Pooled k) (connect_timeout_arg config) true)
               false),
      (count_fmap_const p (λ k, ClientClose (Pooled k)) false) by done.
    lia. }
  rewrite !Hcount by done. split; [|split].
  - rewrite <-(futures_of_threads_length config w d mw sg), <-(Nat.mul_1_r (length _)).
    apply count_threads_le, Forall_fmap, futures_of_Forall.
    intros i. apply run_future_uploads.
  - apply count_threads_eq, Forall_fmap, futures_of_Forall.
    intros i. apply run_future_uploads.
  - unfold successes. rewrite (filter_length_Permutation _ _ _ HP).
    symmetry. apply count_successes; [done|].
    apply futures_of_Forall. intros i. apply run_future_uploads.
Qed.

Lemma X14_uploads_deletes_and_successes_witness :
  let config := numTestFiles 2 empty_payloads in
  let run := run_tests config calm (boot ∅ ∅) in
  (count is_put (log (snd run)) ≤ Z.to_nat (num_test_files config))%nat ∧
  count is_remove (log (snd run)) = count is_uploaded (log (snd run)) ∧
  successes (report_of run) = count is_removed (log (snd run)).
Proof.
  intros config run.
  apply (X14_uploads_deletes_and_successes config calm ∅ ∅ (report_of run)).
  vm_compute. reflexivity.
Defined.

(** ** Archives, names and clients *)

(** X15.  [create_random_zip] touches no local file other than its
    destination and makes no network call.  When it returns, the
    destination holds an archive around exactly [size] random bytes,
    whatever was there before, and [size] was not negative; a negative
    [size] is refused before anything is written. *)
Theorem X15_create_random_zip_writes_only_its_destination
    destination size z s r s' :
  create_random_zip destination size z s = (r, s') →
  (∀ p, p ≠ destination → fs s' !! p = fs s !! p) ∧
  dirs s' = dirs s ∧ log s' = log s ∧
  (r = Ok tt →
   0 ≤ size ∧
   fs s' !! destination
   = Some (mkFile size (zip_overhead + Z.of_nat (compressed_len z)))) ∧
  (size < 0 →
   r = Raise (mkExn AtCreateRandomZip "negative argument not allowed") ∧
   s' = s).
Proof.
  unfold_run. destruct (size <? 0) eqn:Hs;
    [apply Z.ltb_lt in Hs|apply Z.ltb_ge in Hs].
  { intros [= <- <-]. repeat split; try done. }
  destruct (data_write_failure z); [intros [= <- <-]; repeat split; (done || lia)|].
  destruct (zip_open_failure z); [intros [= <- <-]; repeat split; (done || lia)|].
  destruct (zip_write_failure z); intros [= <- <-]; cbn [fs dirs log];
    repeat split; try (done || lia);
    try (intros p Hp; by rewrite lookup_insert_ne);
    apply lookup_insert_eq.
Qed.

Lemma X15_create_random_zip_writes_only_its_destination_witness :
  let s := boot {["/tmp/tmpab12/test_0.zip" := mkFile 9 9]} ∅ in
  let run := create_random_zip "/tmp/tmpab12/test_0.zip" 0
               (mkZip None None None 2) s in
  (∀ p, p ≠ "/tmp/tmpab12/test_0.zip" → fs (snd run) !! p = fs s !! p) ∧
  dirs (snd run) = dirs s ∧ log (snd run) = log s ∧
  (fst run = Ok tt →
   0 ≤ 0 ∧
   fs (snd run) !! "/tmp/tmpab12/test_0.zip"
   = Some (mkFile 0 (zip_overhead
                     + Z.of_nat (compressed_len (mkZip None None None 2))))) ∧
  (0 < 0 →
   fst run = Raise (mkExn AtCreateRandomZip "negative argument not allowed") ∧
   snd run = s).
Proof.
  intros s run.
  apply (X15_create_random_zip_writes_only_its_destination
           "/tmp/tmpab12/test_0.zip" 0 (mkZip None None None 2) s).
  apply surjective_pairing.
Defined.

(** X16.  Two different artifacts never share a name, a local path or a
    remote path, whatever the scratch directory and the root directory are:
    transfers that run at the same time work on different files. *)
Theorem X16_artifacts_have_distinct_paths config d i j :
  i ≠ j →
  test_name i ≠ test_name j ∧
  fst (artifact d i) ≠ fst (artifact d j) ∧
  os_path_join (root_dir config) (snd (artifact d i))
    ≠ os_path_join (root_dir config) (snd (artifact d j)).
Proof.
  intros Hij. repeat split.
  - intros H. by apply test_name_inj in H.
  - intros H. by apply os_path_join_test_name_inj in H.
  - intros H. by apply os_path_join_test_name_inj in H.
Qed.

Lemma X16_artifacts_have_distinct_paths_witness :
  test_name 1 ≠ test_name 10 ∧
  fst (artifact "/tmp/tmpab12" 1) ≠ fst (artifact "/tmp/tmpab12" 10) ∧
  os_path_join (root_dir empty_payloads) (snd (artifact "/tmp/tmpab12" 1))
    ≠ os_path_join (root_dir empty_payloads)
        (snd (artifact "/tmp/tmpab12" 10)).
Proof.
  apply (X16_artifacts_have_distinct_paths empty_payloads "/tmp/tmpab12" 1 10).
  lia.
Defined.

(** X17.  Every network call that the worker of artifact [idx] makes on a
    client is made on one and the same client: with keep-alive the session
    of the pool in slot [idx mod max_workers], without keep-alive the
    client that this call connected itself. *)
Theorem X17_one_client_per_artifact config w s mw idx p :
  (0 < mw)%nat →
  Forall (λ e, ∀ c, client_of e = Some c →
                 c = if truthy (keep_alive_enabled config)
                     then Pooled (idx mod mw) else Ephemeral idx)
         (snd (run_future config w s mw (pool config mw) idx p)).
Proof.
  intros Hmw. unfold run_future.
  destruct (truthy (keep_alive_enabled config)) eqn:Hk.
  - rewrite pool_lookup_pooled by done.
    destruct (sftp_operation _ _ _ _ _ _ _) as [r s'] eqn:E. cbn [snd].
    revert E. run_M; intros [= _ <-]; reduce_M; cbn [app];
      repeat constructor; by intros c [= <-].
  - rewrite pool_lookup_ephemeral by done.
    destruct (sftp_operation _ _ _ _ _ _ _) as [r s'] eqn:E. cbn [snd].
    revert E. run_M; intros [= _ <-]; reduce_M; cbn [app];
      repeat constructor; by intros c [= <-].
Qed.

Lemma X17_one_client_per_artifact_witness :
  let config := keepAliveEnabled 1 empty_payloads in
  Forall (λ e, ∀ c, client_of e = Some c →
                 c = if truthy (keep_alive_enabled config)
                     then Pooled (5 mod 2) else Ephemeral 5)
         (snd (run_future config calm
                 (boot {["/tmp/tmpab12/test_5.zip" := small_zip]} ∅) 2
                 (pool config 2) 5 (artifact "/tmp/tmpab12" 5))).
Proof.
  intros config.
  apply (X17_one_client_per_artifact config calm
           (boot {["/tmp/tmpab12/test_5.zip" := small_zip]} ∅) 2 5
           (artifact "/tmp/tmpab12" 5)).
  lia.
Defined.

(** * The private key check *)

Lemma try_loaders_settled load qualname path before l after :
  Forall (λ k, load k = RaisesSSHException) before →
  load l ≠ RaisesSSHException →
  ended (try_loaders load qualname path (before ++ l :: after))
    = settles (load l) ∧
  called (try_loaders load qualname path (before ++ l :: after))
    = (before ++ [l])%list.
Proof.
  intros Hb Hl. induction Hb as [|k before Hk _ IH]; simpl.
  - by destruct (load l).
  - rewrite Hk. simpl. destruct IH as [-> ->]. done.
Qed.

Lemma try_loaders_exhausted load qualname path ls :
  Forall (λ k, load k = RaisesSSHException) ls →
  ended (try_loaders load qualname path ls) = Returned false ∧
  called (try_loaders load qualname path ls) = ls.
Proof.
  induction 1 as [|k ls Hk _ IH]; simpl; [done|].
  rewrite Hk. simpl. by destruct IH as [-> ->].
Qed.

Lemma try_loaders_prefix load qualname path ls :
  ∃ rest, ls = (called (try_loaders load qualname path ls) ++ rest)%list.
Proof.
  induction ls as [|l ls [rest IH]]; simpl; [by exists []|].
  destruct (load l); simpl; try by exists ls.
  exists rest. by rewrite <-IH.
Qed.

(** X18.  The check of the private key is settled by the first loader, in
    the order RSA, ECDSA, Ed25519, DSS, that does not raise a plain
    [SSHException]: the check returns True when that loader loads the key,
    False when it raises [FileNotFoundError] or
    [PasswordRequiredException], and any other exception leaves the check;
    the loaders after it are not called. *)
Theorem X18_first_decisive_loader_settles_the_check
    config load qualname path before l after :
  ssh_private_key_path config = Some path → path ≠ "" →
  loaders = (before ++ l :: after)%list →
  Forall (λ k, load path (ssh_private_key_passphrase config) k
               = RaisesSSHException) before →
  load path (ssh_private_key_passphrase config) l ≠ RaisesSSHException →
  ended (_validate_private_key config load qualname)
    = settles (load path (ssh_private_key_passphrase config) l) ∧
  called (_validate_private_key config load qualname) = (before ++ [l])%list.
Proof.
  intros Hp Hne Hls Hb Hl. unfold _validate_private_key. rewrite Hp.
  destruct path as [|a path]; [done|]. rewrite Hls.
  by apply try_loaders_settled.
Qed.

Lemma X18_first_decisive_loader_settles_the_check_witness :
  let config := setSshPrivateKeyPath "/home/u/.ssh/id_ed25519"
                  empty_payloads in
  ended (_validate_private_key config ed25519_only (λ _, "PKey.from_private_key_file"))
    = settles (ed25519_only "/home/u/.ssh/id_ed25519"
                 (ssh_private_key_passphrase config) Ed25519Key) ∧
  called (_validate_private_key config ed25519_only (λ _, "PKey.from_private_key_file"))
    = ([RSAKey; ECDSAKey] ++ [Ed25519Key])%list.
Proof.
  intros config.
  apply (X18_first_decisive_loader_settles_the_check config ed25519_only
           (λ _, "PKey.from_private_key_file") "/home/u/.ssh/id_ed25519"
           [RSAKey; ECDSAKey] Ed25519Key [DSSKey]).
  - reflexivity.
  - discriminate.
  - reflexivity.
  - repeat constructor.
  - discriminate.
Defined.

(** X19.  The check calls the loaders in their order and never a loader
    twice: the loaders it called are an initial part of RSA, ECDSA,
    Ed25519, DSS.  Without a key path (none, or the empty string) it calls
    no loader and returns False; and it returns False after calling all
    four when each of them raises a plain [SSHException]. *)
Theorem X19_loaders_are_called_in_order config load qualname :
  (∃ rest,
     loaders = (called (_validate_private_key config load qualname) ++ rest)%list) ∧
  (ssh_private_key_path config = None ∨ ssh_private_key_path config = Some "" →
   ended (_validate_private_key config load qualname) = Returned false ∧
   called (_validate_private_key config load qualname) = []) ∧
  (∀ path,
     ssh_private_key_path config = Some path → path ≠ "" →
     Forall (λ k, load path (ssh_private_key_passphrase config) k
                  = RaisesSSHException) loaders →
     ended (_validate_private_key config load qualname) = Returned false ∧
     called (_validate_private_key config load qualname) = loaders).
Proof.
  unfold _validate_private_key. split; [|split].
  - destruct (ssh_private_key_path config) as [[|a path]|];
      [by exists loaders|apply try_loaders_prefix|by exists loaders].
  - by intros [->| ->].
  - intros path -> Hne Hall. destruct path as [|a path]; [done|].
    by apply try_loaders_exhausted.
Qed.

(** * Loading a configuration *)

Lemma SFTPConfig_new_fields k :
  is_Some (SFTPConfig_new !! k) ↔ k ∈ field_names.
Proof.
  unfold SFTPConfig_new. split.
  - intros H. destruct (decide (k ∈ field_names)) as [|Hn]; [done|].
    apply not_eq_None_Some in H. destruct H.
    by apply not_elem_of_list_to_map_1.
  - intros H. apply not_eq_None_Some. intros Hn.
    by apply not_elem_of_list_to_map_2 in Hn.
Qed.

Lemma set_items_app rt cfg l1 l2 :
  set_items rt cfg (l1 ++ l2)
  = match set_items rt cfg l1 with
    | Config cfg' => set_items rt cfg' l2
    | LoadRaises e => LoadRaises e
    end.
Proof.
  revert cfg. induction l1 as [|[k v] l1 IH]; intros cfg; simpl; [done|].
  destruct (set_item rt cfg k v); [apply IH|done].
Qed.

Lemma set_items_plain rt items cfg :
  (∀ k, is_Some (cfg !! k) ↔ k ∈ field_names) →
  plain_items rt items →
  ∃ cfg',
    set_items rt cfg items = Config cfg' ∧
    (∀ k, is_Some (cfg' !! k) ↔ k ∈ field_names) ∧
    (∀ f, (∀ v, (YStr f, v) ∉ items) → cfg' !! f = cfg !! f) ∧
    (NoDup (fst <$> items) →
     ∀ f v, (YStr f, v) ∈ items → f ∈ field_names → cfg' !! f = Some v).
Proof.
  unfold plain_items.
  revert cfg. induction items as [|[k v] items IH]; intros cfg Hdom Hplain.
  { exists cfg. repeat split; try done; try apply Hdom.
    intros _ f v Hin. by apply elem_of_nil in Hin. }
  destruct (Hplain k v) as (s & -> & Hs); [left|].
  assert (∀ k' v', (k', v') ∈ items →
            ∃ s', k' = YStr s' ∧
                  (s' ∈ field_names ∨
                   ((s' ∉ class_names) ∧ object_has rt s' = false)))
    as Hrest.
  { intros k' v' Hin. apply (Hplain k' v'). by right. }
  cbn [set_items set_item]. unfold hasattr, setattr.
  destruct (decide (s ∈ field_names)) as [Hfield|Hfield].
  - rewrite (bool_decide_eq_true_2 (is_Some (cfg !! s))) by by apply Hdom.
    cbn [orb].
    assert (∀ k, is_Some (<[s := v]> cfg !! k) ↔ k ∈ field_names) as Hdom1.
    { intros k. rewrite lookup_insert_is_Some, Hdom.
      split; [intros [->|[_ ?]]; done|]. intros Hk.
      destruct (decide (s = k)); [by left|by right]. }
    destruct (IH _ Hdom1 Hrest) as (cfg' & Hset & Hdom' & Hkeep & Hval).
    exists cfg'. split; [done|]. split; [done|]. split.
    + intros f Hf. rewrite Hkeep.
      * apply lookup_insert_ne. intros ->. apply (Hf v). left.
      * intros v' Hin. apply (Hf v'). by right.
    + intros Hnd f v' Hin Hff. cbn [fmap list_fmap fst] in Hnd.
      apply NoDup_cons in Hnd as [Hnotin Hnd].
      apply elem_of_cons in Hin as [[= -> ->]|Hin]; [|by apply Hval].
      rewrite Hkeep; [apply lookup_insert_eq|].
      intros v' Hin'. apply Hnotin, list_elem_of_fmap. by exists (YStr s, v').
  - destruct Hs as [?|[Hclass Hobj]]; [done|].
    rewrite (bool_decide_eq_false_2 (is_Some (cfg !! s)))
      by (intros ?; by apply Hfield, Hdom).
    rewrite (bool_decide_eq_false_2 (s ∈ class_names)) by done.
    cbn [orb]. rewrite Hobj.
    destruct (IH cfg Hdom Hrest) as (cfg' & Hset & Hdom' & Hkeep & Hval).
    exists cfg'. split; [done|]. split; [done|]. split.
    + intros f Hf. apply Hkeep. intros v' Hin. apply (Hf v'). by right.
    + intros Hnd f v' Hin Hff. cbn [fmap list_fmap fst] in Hnd.
      apply NoDup_cons in Hnd as [_ Hnd].
      apply elem_of_cons in Hin as [[= -> ->]|Hin]; [done|by apply Hval].
Qed.

(** X20.  A document that is not a mapping with items loads as the
    default configuration when Python takes it for false (an empty file,
    [null], an empty mapping or sequence, [0], [false], an empty string),
    and makes [from_yaml] raise the [AttributeError] of [data.items()] when
    Python takes it for true (a non-empty sequence, string or set, a
    number other than 0, [true], a date). *)
Theorem X20_document_without_items rt doc :
  (∀ items, doc = YMap items → items = []) →
  from_yaml rt (Parsed doc)
  = if py_truthy doc then LoadRaises NoItems else Config SFTPConfig_new.
Proof.
  intros Hmap. unfold from_yaml. destruct (py_truthy doc) eqn:Ht; [|done].
  destruct doc; try done. by rewrite (Hmap items eq_refl) in Ht.
Qed.

Lemma X20_document_without_items_witness :
  from_yaml bare (Parsed (YSeq [YStr "host"]))
  = if py_truthy (YSeq [YStr "host"])
    then LoadRaises NoItems else Config SFTPConfig_new.
Proof.
  apply (X20_document_without_items bare (YSeq [YStr "host"])).
  discriminate.
Defined.

(** X21.  A mapping whose keys are strings that name fields, or name
    nothing that a configuration has, loads without an error into a
    configuration with exactly the fourteen fields: each field that the
    mapping names holds the value of the mapping as it is, of whatever
    type, without the [int(...)] of the setters; each other field keeps its
    default; and the keys that name no field are dropped silently. *)
Theorem X21_fields_are_overwritten_and_unknown_keys_dropped rt items :
  plain_items rt items →
  NoDup (fst <$> items) →
  ∃ cfg,
    from_yaml rt (Parsed (YMap items)) = Config cfg ∧
    (∀ k, is_Some (cfg !! k) ↔ k ∈ field_names) ∧
    (∀ f v, (YStr f, v) ∈ items → f ∈ field_names → cfg !! f = Some v) ∧
    (∀ f, (∀ v, (YStr f, v) ∉ items) → cfg !! f = SFTPConfig_new !! f).
Proof.
  intros Hplain Hnd.
  destruct (set_items_plain rt items SFTPConfig_new SFTPConfig_new_fields
              Hplain) as (cfg & Hset & Hdom & Hkeep & Hval).
  exists cfg. split; [|by auto].
  unfold from_yaml. destruct (py_truthy (YMap items)) eqn:Ht; [done|].
  cbn [py_truthy] in Ht. apply negb_false_iff, bool_decide_eq_true in Ht.
  by subst items.
Qed.

Lemma X21_fields_are_overwritten_and_unknown_keys_dropped_witness :
  let items := [(YStr "num_test_files", YStr "3");
                (YStr "hostname", YStr "sftp.example.org")] in
  ∃ cfg,
    from_yaml bare (Parsed (YMap items)) = Config cfg ∧
    (∀ k, is_Some (cfg !! k) ↔ k ∈ field_names) ∧
    (∀ f v, (YStr f, v) ∈ items → f ∈ field_names → cfg !! f = Some v) ∧
    (∀ f, (∀ v, (YStr f, v) ∉ items) → cfg !! f = SFTPConfig_new !! f).
Proof.
  intros items.
  apply (X21_fields_are_overwritten_and_unknown_keys_dropped bare items).
  - intros k v Hin.
    apply elem_of_cons in Hin as [[= -> ->]|Hin].
    { exists "num_test_files". split; [done|]. left.
      refine (bool_decide_unpack _ _). vm_compute. exact I. }
    apply elem_of_cons in Hin as [[= -> ->]|Hin].
    { exists "hostname". split; [done|]. right. split; [|done].
      refine (bool_decide_unpack _ _). vm_compute. exact I. }
    by apply elem_of_nil in Hin.
  - cbn. repeat constructor.
    + intros Hin. apply elem_of_cons in Hin as [[=]|Hin].
      by apply elem_of_nil in Hin.
    + intros Hin. by apply elem_of_nil in Hin.
Defined.

(** X22.  A mapping with a key that is not a string (a number, a boolean,
    [null]) makes [from_yaml] raise the [TypeError] of [hasattr], once the
    items before that key are dealt with. *)
Theorem X22_key_that_is_not_a_string_raises rt before key value after :
  plain_items rt before →
  (∀ s, key ≠ YStr s) →
  from_yaml rt (Parsed (YMap (before ++ (key, value) :: after)))
  = LoadRaises KeyNotString.
Proof.
  intros Hplain Hkey. unfold from_yaml.
  destruct (py_truthy _) eqn:Ht.
  - rewrite set_items_app.
    destruct (set_items_plain rt before SFTPConfig_new SFTPConfig_new_fields
                Hplain) as (cfg & -> & _).
    cbn [set_items set_item]. destruct key; try done. by destruct (Hkey s).
  - cbn [py_truthy] in Ht. apply negb_false_iff, bool_decide_eq_true in Ht.
    by destruct before.
Qed.

Lemma X22_key_that_is_not_a_string_raises_witness :
  from_yaml bare
    (Parsed (YMap ([(YStr "host", YStr "sftp.example.org")]
                   ++ (YInt 22, YStr "port") :: [])))
  = LoadRaises KeyNotString.
Proof.
  apply (X22_key_that_is_not_a_string_raises bare
           [(YStr "host", YStr "sftp.example.org")] (YInt 22) (YStr "port") []).
  - intros k v Hin. apply elem_of_cons in Hin as [[= -> ->]|Hin].
    { exists "host". split; [done|]. left.
      refine (bool_decide_unpack _ _). vm_compute. exact I. }
    by apply elem_of_nil in Hin.
  - discriminate.
Defined.

(** X23.  [hasattr] also finds the methods of the class: a mapping whose
    key is the name of a method ([setHost], [from_yaml], ...) is stored
    under that name in the loaded configuration, where it hides the
    method. *)
Theorem X23_key_naming_a_method_is_stored rt m value :
  m ∈ class_names →
  from_yaml rt (Parsed (YMap [(YStr m, value)]))
  = Config (<[m := value]> SFTPConfig_new).
Proof.
  intros Hm. unfold from_yaml. cbn [py_truthy].
  rewrite (bool_decide_eq_false_2 (_ = [])) by done.
  cbn [negb set_items set_item]. unfold hasattr, setattr.
  rewrite (bool_decide_eq_true_2 (m ∈ class_names)) by done.
  by rewrite orb_true_r.
Qed.

Lemma X23_key_naming_a_method_is_stored_witness :
  from_yaml bare (Parsed (YMap [(YStr "setHost", YStr "sftp.example.org")]))
  = Config (<["setHost" := YStr "sftp.example.org"]> SFTPConfig_new).
Proof.
  apply (X23_key_naming_a_method_is_stored bare "setHost").
  refine (bool_decide_unpack _ _). vm_compute. exact I.
Defined.

(** * The text of a report *)

Lemma string_app_assoc (a b c : string) :
  (a +:+ b) +:+ c = a +:+ b +:+ c.
Proof.
  induction a as [|x a IH]; [done|].
  change (String x ((a +:+ b) +:+ c) = String x (a +:+ b +:+ c)).
  by f_equal.
Qed.

Lemma join_lines_snoc lines l :
  lines ≠ [] → join_lines (lines ++ [l]) = join_lines lines +:+ LF +:+ l.
Proof.
  induction lines as [|a [|b lines] IH]; intros Hne; [done|done|].
  specialize (IH ltac:(done)).
  change (join_lines ((a :: b :: lines) ++ [l]))
    with (a +:+ LF +:+ join_lines ((b :: lines) ++ [l])).
  change (join_lines (a :: b :: lines))
    with (a +:+ LF +:+ join_lines (b :: lines)).
  rewrite IH. by rewrite !string_app_assoc.
Qed.

(** X24.  The text of a report grows with the report: adding an outcome
    appends a line feed and the line of that outcome and changes nothing
    before it, and the text of the empty report is the two lines of the
    heading. *)
Theorem X24_report_text_grows_by_one_line fmt2 report stat :
  to_text fmt2 (add report stat)
  = to_text fmt2 report +:+ LF +:+ stat_line fmt2 stat ∧
  to_text fmt2 (mkTestReport [])
  = "SFTP Test Report" +:+ LF +:+ "=================".
Proof.
  split; [|done].
  unfold to_text, add. cbn [file_stats].
  rewrite fmap_app, app_assoc. cbn [fmap list_fmap].
  by rewrite join_lines_snoc.
Qed.

(** * Cleanup and the errors of a run *)

Lemma rmdir_Raise d s e s' :
  rmdir d s = (Raise e, s') →
  s' = s ∧
  ((e = mkExn AtRmdir "Directory not empty" ∧
    ∃ p, in_dir d p = true ∧ is_Some (fs s !! p)) ∨
   (e = mkExn AtRmdir "No such file or directory" ∧
    ∀ p, in_dir d p = true → fs s !! p = None)).
Proof.
  unfold rmdir. destruct (existsb _ _) eqn:He.
  - intros [= <- <-]. split; [done|]. left. split; [done|].
    apply existsb_exists in He as (p & Hin & Hp).
    apply list_elem_of_In, list_elem_of_fmap in Hin as ([q f] & -> & Hin).
    apply elem_of_map_to_list in Hin. exists q. by split.
  - destruct (bool_decide _); [done|]. intros [= <- <-]. split; [done|].
    right. split; [done|]. intros p Hp.
    destruct (fs s !! p) as [f|] eqn:Hf; [|done].
    assert (existsb (in_dir d) (fst <$> map_to_list (fs s)) = true) as Ht;
      [|congruence].
    apply existsb_exists. exists p. split; [|done].
    apply list_elem_of_In, list_elem_of_fmap. exists (p, f).
    split; [done|]. by apply elem_of_map_to_list.
Qed.

(** X25.  A run leaves a file below its scratch directory exactly when it
    ends with the [OSError] of [os.rmdir] on a directory that is not empty:
    whatever went wrong before, the caller then sees the error of the
    cleanup, and a run that ends in any other way has left nothing
    there. *)
Theorem X25_leftover_files_show_as_the_rmdir_error config w s0 d :
  mkdtemp_answer w = Returns d →
  (∃ p, in_dir d p = true ∧ is_Some (fs (snd (run_tests config w s0)) !! p))
  ↔ fst (run_tests config w s0) = Raise (mkExn AtRmdir "Directory not empty").
Proof.
  intros Hd. destruct (run_tests config w s0) as [r s1] eqn:H.
  apply run_tests_inv in H as [(msg & ? & _)|H]; [congruence|].
  destruct H as (d' & rb & s2 & rf & Hd' & Hb & Hf & Hr).
  assert (d' = d) as -> by congruence.
  destruct (finally_block_spec d s2) as (s3 & Hfin & _).
  rewrite Hfin in Hf. cbn [fst snd]. destruct rf as [[]|e].
  - apply rmdir_Ok in Hf as (Hempty & Hfs & _). subst r. split.
    + intros (p & Hp & [f Hsome]). rewrite Hfs, (Hempty p Hp) in Hsome. done.
    + intros ->. apply try_block_Raise in Hb
        as [Ho|[Ho|[Ho|[[Ho _]|Ho]]]]; discriminate Ho.
  - apply rmdir_Raise in Hf as (-> & [[-> Hleft]|[-> Hempty]]); subst r.
    + by split.
    + split; [|done]. intros (p & Hp & [f Hsome]).
      by rewrite (Hempty p Hp) in Hsome.
Qed.

Lemma X25_leftover_files_show_as_the_rmdir_error_witness :
  (∃ p, in_dir "/tmp/tmpab12" p = true ∧
        is_Some (fs (snd (run_tests empty_payloads disk_full (boot ∅ ∅))) !! p))
  ↔ fst (run_tests empty_payloads disk_full (boot ∅ ∅))
    = Raise (mkExn AtRmdir "Directory not empty").
Proof.
  apply (X25_leftover_files_show_as_the_rmdir_error empty_payloads disk_full
           (boot ∅ ∅) "/tmp/tmpab12").
  reflexivity.
Defined.

Lemma generate_tracked config w d idxs s r s' :
  (∀ i, i ∈ idxs → zip_write_failure (zip_behaviour w i) = None) →
  generate config w d idxs s = (r, s') →
  (∀ p, is_Some (fs s' !! p) →
        is_Some (fs s !! p) ∨ p ∈ fst <$> paths s') ∧
  (∀ p, p ∈ fst <$> paths s → p ∈ fst <$> paths s') ∧
  dirs s' = dirs s.
Proof.
  revert s. induction idxs as [|i idxs IH]; intros s Hw; simpl.
  { unfold_run. intros [= <- <-]. repeat split; auto. }
  assert (∀ j, j ∈ idxs → zip_write_failure (zip_behaviour w j) = None)
    as Hrest by (intros j Hj; apply Hw; by right).
  unfold_run.
  destruct (_ <=? _); [|intros [= <- <-]; repeat split; auto].
  destruct (_ <? 0); [intros [= <- <-]; repeat split; auto|].
  destruct (data_write_failure _); [intros [= <- <-]; repeat split; auto|].
  destruct (zip_open_failure _); [intros [= <- <-]; repeat split; auto|].
  rewrite (Hw i) by left.
  intros H. apply (IH _ Hrest) in H as (Hfs & Hps & Hds).
  cbn [fs paths dirs] in Hfs, Hps, Hds. repeat split; [| |done].
  - intros p Hp. apply Hfs in Hp as [Hp|Hp]; [|by right].
    destruct (decide (p = os_path_join d (test_name i))) as [->|Hne].
    + right. apply Hps. rewrite fmap_app. apply elem_of_app. right. left.
    + left. by rewrite lookup_insert_ne in Hp.
  - intros p Hp. apply Hps. rewrite fmap_app. apply elem_of_app. by left.
Qed.

(** X26.  The cleanup is complete whenever no archive fails while it is
    being written into: if the scratch directory was fresh and no
    [zf.write] of the run raises, then however the run ends (report, or an
    error of the size draw, of the payload write, of a connect or of a
    worker) nothing is left below the scratch directory, the directory is
    removed, and the run ends the way the body of its [try] ended. *)
Theorem X26_cleanup_is_complete_unless_an_archive_write_fails
    config w s0 d :
  mkdtemp_answer w = Returns d →
  (∀ p, in_dir d p = true → fs s0 !! p = None) →
  (∀ i, (i < Z.to_nat (num_test_files config))%nat →
        zip_write_failure (zip_behaviour w i) = None) →
  fst (run_tests config w s0) = fst (try_block config w d (entered d s0)) ∧
  dirs (snd (run_tests config w s0)) = dirs s0 ∖ {[d]} ∧
  (∀ p, in_dir d p = true → fs (snd (run_tests config w s0)) !! p = None).
Proof.
  intros Hd Hfresh Hw.
  destruct (run_tests config w s0) as [r s1] eqn:H.
  apply run_tests_inv in H as [(msg & ? & _)|H]; [congruence|].
  destruct H as (d' & rb & s2 & rf & Hd' & Hb & Hf & Hr).
  assert (d' = d) as -> by congruence.
  destruct (try_block_storage _ _ _ _ _ _ Hb)
    as (rg & sg & Hg & _ & Hfs & Hds & Hps).
  apply generate_tracked in Hg as (Htr & _ & Hdg).
  2:{ intros i Hi. apply Hw. apply elem_of_seq in Hi. lia. }
  destruct (finally_block_spec d s2) as (s3 & Hfin & _ & Hd3 & Hin & Hout).
  assert (∀ p, in_dir d p = true → fs s3 !! p = None) as Hempty.
  { intros p Hp.
    destruct (decide (p ∈ fst <$> paths s2)) as [?|Hn]; [by apply Hin|].
    rewrite Hout by done. rewrite Hfs.
    destruct (fs sg !! p) as [f|] eqn:Hsome; [|done].
    destruct (Htr p) as [[f' Hf']|Hp']; [by exists f| |].
    - cbn [entered fs] in Hf'. by rewrite (Hfresh p Hp) in Hf'.
    - rewrite <-Hps in Hp'. done. }
  rewrite Hfin, rmdir_empty in Hf; [|done|].
  2:{ rewrite Hd3, Hds, Hdg. apply elem_of_union_singleton. }
  injection Hf as <- <-. subst r. cbn [fst snd fs dirs].
  rewrite Hb. repeat split; try done.
  rewrite Hd3, Hds, Hdg. apply difference_union_singleton.
Qed.

Lemma X26_cleanup_is_complete_unless_an_archive_write_fails_witness :
  let config := numTestFiles 2 empty_payloads in
  let run := run_tests config second_payload_fails (boot ∅ ∅) in
  fst run
    = fst (try_block config second_payload_fails "/tmp/tmpab12"
             (entered "/tmp/tmpab12" (boot ∅ ∅))) ∧
  dirs (snd run) = dirs (boot ∅ ∅) ∖ {["/tmp/tmpab12"]} ∧
  (∀ p, in_dir "/tmp/tmpab12" p = true → fs (snd run) !! p = None).
Proof.
  intros config run.
  apply (X26_cleanup_is_complete_unless_an_archive_write_fails config
           second_payload_fails (boot ∅ ∅) "/tmp/tmpab12").
  - reflexivity.
  - intros p _. reflexivity.
  - intros [|[|i]] _; reflexivity.
Defined.
